(** * content-pipeline: response parsing, validation, routing, orchestration

    A shallow embedding of the Python sources
      - [pipeline/utils.py]      ([extract_json_from_response], [validate_dict_keys])
      - [pipeline/classifier.py], [pipeline/extractor.py], [pipeline/generator.py]
      - [pipeline/router.py], [pipeline/logger.py], [config.py]
      - [main.py]                ([ContentPipeline.process], [process_batch])

    Conventions.
    - A Python [str] is a [string]; a character is a code point below 256.
    - Exceptions are values of [exn]; a call that may raise returns [exn + A].
    - The world the program acts on (output directories, log, collaborator,
      clock) is threaded explicitly through a state-and-exception monad.
    - Library functions the sources call but do not define ([json.loads],
      [repr], [str], the collaborator, the clock) are Section variables. *)

From Stdlib Require Import ZArith Lia Ascii String List Bool.
From stdpp Require Import base option list gmap strings fin_maps.

Local Open Scope string_scope.
Local Set Warnings "-register-all".

(** ** Python strings *)

Module PyStr.

(** [str.isspace] on one character, for code points below 256; the regular
    expression class [\s] of a [str] pattern is the same set. *)
Definition is_space (c : ascii) : bool :=
  let n := N_of_ascii c in
  (((9 <=? n) && (n <=? 13)) || ((28 <=? n) && (n <=? 32))
   || (n =? 133) || (n =? 160))%N.

Definition nl : ascii := "010"%char.
Definition backtick : ascii := "`"%char.
Definition fence : string := "```".

Fixpoint all_space (s : string) : bool :=
  match s with
  | EmptyString => true
  | String c s' => is_space c && all_space s'
  end.

Fixpoint lstrip (s : string) : string :=
  match s with
  | EmptyString => EmptyString
  | String c s' => if is_space c then lstrip s' else s
  end.

Fixpoint rstrip (s : string) : string :=
  match s with
  | EmptyString => EmptyString
  | String c s' =>
      match rstrip s' with
      | EmptyString => if is_space c then EmptyString else String c EmptyString
      | r => String c r
      end
  end.

(** [s.strip()] *)
Definition strip (s : string) : string := lstrip (rstrip s).

(** [s.startswith(p)] *)
Fixpoint startswith (p s : string) : bool :=
  match p, s with
  | EmptyString, _ => true
  | String a p', String b s' => Ascii.eqb a b && startswith p' s'
  | String _ _, EmptyString => false
  end.

(** [p in s] *)
Fixpoint contains (p s : string) : bool :=
  startswith p s ||
  match s with
  | EmptyString => false
  | String _ s' => contains p s'
  end.

(** [c in s] for a single character *)
Fixpoint has_char (c : ascii) (s : string) : bool :=
  match s with
  | EmptyString => false
  | String a s' => Ascii.eqb a c || has_char c s'
  end.

Fixpoint drop (n : nat) (s : string) : string :=
  match n, s with
  | O, _ => s
  | S n', String _ s' => drop n' s'
  | S _, EmptyString => EmptyString
  end.

Fixpoint take (n : nat) (s : string) : string :=
  match n, s with
  | S n', String c s' => String c (take n' s')
  | _, _ => EmptyString
  end.

(** [s.endswith(p)] *)
Definition endswith (p s : string) : bool :=
  startswith p (drop (String.length s - String.length p) s)
  && (String.length p <=? String.length s)%nat.

(** [s[a:b]] for non-negative [a] and [b] *)
Definition slice (s : string) (a b : Z) : string :=
  take (Z.to_nat (b - a)) (drop (Z.to_nat a) s).

Fixpoint find_from (c : ascii) (s : string) (i : Z) : Z :=
  match s with
  | EmptyString => (-1)%Z
  | String a s' => if Ascii.eqb a c then i else find_from c s' (i + 1)%Z
  end.

(** [s.find(c)]: the lowest index of [c], or [-1] *)
Definition find (c : ascii) (s : string) : Z := find_from c s 0.

Fixpoint rfind_from (c : ascii) (s : string) (i last : Z) : Z :=
  match s with
  | EmptyString => last
  | String a s' => rfind_from c s' (i + 1)%Z (if Ascii.eqb a c then i else last)
  end.

(** [s.rfind(c)]: the highest index of [c], or [-1] *)
Definition rfind (c : ascii) (s : string) : Z := rfind_from c s 0 (-1).

(** [s.split('\n')] *)
Fixpoint split_nl (s : string) : list string :=
  match s with
  | EmptyString => [EmptyString]
  | String c s' =>
      if Ascii.eqb c nl then EmptyString :: split_nl s'
      else match split_nl s' with
           | l :: ls => String c l :: ls
           | [] => [String c EmptyString]
           end
  end.

(** ['\n'.join(ls)] *)
Fixpoint join_nl (ls : list string) : string :=
  match ls with
  | [] => EmptyString
  | [l] => l
  | l :: ls' => l +:+ String nl (join_nl ls')
  end.

(** [sep.join(ls)] *)
Fixpoint join (sep : string) (ls : list string) : string :=
  match ls with
  | [] => EmptyString
  | [l] => l
  | l :: ls' => l +:+ sep +:+ join sep ls'
  end.

End PyStr.

(** ** The regular expression of the fence strategy

    [re.findall(r'```(?:json)?\s*\n(.*?)\n```', text, re.DOTALL)], of which the
    program reads only whether the result is empty and its first element.
    The matcher below follows the backtracking order of [re]: leftmost start,
    the optional group tried present first, [\s*] longest first, [.*?]
    shortest first. *)

Module Re.
Import PyStr.

(** [(.*?)\n```]: the shortest text after which a newline and a fence follow *)
Fixpoint lazy_until_fence (r : string) : option string :=
  if startswith (String nl fence) r then Some EmptyString
  else match r with
       | EmptyString => None
       | String c r' => String c <$> lazy_until_fence r'
       end.

(** [\s*\n(.*?)\n```] *)
Fixpoint tail_match (r : string) : option string :=
  match r with
  | EmptyString => None
  | String c r' =>
      match (if is_space c then tail_match r' else None) with
      | Some g => Some g
      | None => if Ascii.eqb c nl then lazy_until_fence r' else None
      end
  end.

(** the whole pattern, anchored at the start of [s] *)
Definition match_at (s : string) : option string :=
  if startswith fence s then
    let r0 := drop 3 s in
    match (if startswith "json" r0 then tail_match (drop 4 r0) else None) with
    | Some g => Some g
    | None => tail_match r0
    end
  else None.

(** the group of the first match of [findall], if there is a match *)
Fixpoint findall_first (s : string) : option string :=
  match match_at s with
  | Some g => Some g
  | None => match s with
            | EmptyString => None
            | String _ s' => findall_first s'
            end
  end.

End Re.

(** ** JSON values, as [json.loads] returns them *)

Inductive json : Type :=
  | JNull
  | JBool (b : bool)
  | JInt (z : Z)
  | JFloat (m e : Z)          (* the float written m * 10^e *)
  | JStr (s : string)
  | JArr (l : list json)
  | JObj (kvs : list (string * json)).   (* a dict, in insertion order *)

(** ** Exceptions *)

Inductive exn : Type :=
  | ValueError (msg : string)
  | TypeError (msg : string)
  | OSError (msg : string)
  | KeyError (msg : string)
  | JSONDecodeError (msg : string)
  | AttributeError (msg : string)
  | ExternalError (msg : string)   (* whatever the collaborator call raises *)
  | Exception (msg : string).

(** [str(e)] *)
Definition exn_str (e : exn) : string :=
  match e with
  | ValueError m | TypeError m | OSError m | KeyError m | AttributeError m
  | JSONDecodeError m
  | ExternalError m | Exception m => m
  end.

(** [type(e).__name__] *)
Definition exn_type_name (e : exn) : string :=
  match e with
  | ValueError _ => "ValueError"
  | TypeError _ => "TypeError"
  | OSError _ => "OSError"
  | KeyError _ => "KeyError"
  | JSONDecodeError _ => "JSONDecodeError"
  | AttributeError _ => "AttributeError"
  | ExternalError _ => "APIError"
  | Exception _ => "Exception"
  end.

Module Py.

(** [d.get(k)] on a dict *)
Fixpoint dict_get (k : string) (kvs : list (string * json)) : option json :=
  match kvs with
  | [] => None
  | (k', v) :: rest => if String.eqb k' k then Some v else dict_get k rest
  end.

(** [k in d] *)
Definition dict_has (k : string) (kvs : list (string * json)) : bool :=
  bool_decide (is_Some (dict_get k kvs)).

(** [list(d.keys())] *)
Definition dict_keys (kvs : list (string * json)) : list string := kvs.*1.

(** [type(v)], as an f-string prints it *)
Definition type_repr (v : json) : string :=
  match v with
  | JNull => "<class 'NoneType'>"
  | JBool _ => "<class 'bool'>"
  | JInt _ => "<class 'int'>"
  | JFloat _ _ => "<class 'float'>"
  | JStr _ => "<class 'str'>"
  | JArr _ => "<class 'list'>"
  | JObj _ => "<class 'dict'>"
  end.

(** [type(v).__name__] *)
Definition type_name (v : json) : string :=
  match v with
  | JNull => "NoneType"
  | JBool _ => "bool"
  | JInt _ => "int"
  | JFloat _ _ => "float"
  | JStr _ => "str"
  | JArr _ => "list"
  | JObj _ => "dict"
  end.

(** truthiness, [bool(v)] *)
Definition truthy (v : json) : bool :=
  match v with
  | JNull => false
  | JBool b => b
  | JInt z => negb (z =? 0)%Z
  | JFloat m _ => negb (m =? 0)%Z
  | JStr s => negb (String.eqb s "")
  | JArr l => negb (bool_decide (l = []))
  | JObj kvs => negb (bool_decide (kvs = []))
  end.

(** the characters of a string, each as a string *)
Fixpoint chars (s : string) : list string :=
  match s with
  | EmptyString => []
  | String c s' => String c EmptyString :: chars s'
  end.

Definition as_str (v : json) : option string :=
  match v with JStr s => Some s | _ => None end.

(** what [sep.join(v)] iterates over, when it accepts [v]: the value must be
    iterable and yield only [str]; a string yields its characters, a dict
    its keys. *)
Definition str_items (v : json) : option (list string) :=
  match v with
  | JStr s => Some (chars s)
  | JArr l => mapM as_str l
  | JObj kvs => Some (dict_keys kvs)
  | _ => None
  end.

(** [v[:3]], when [v] can be sliced *)
Definition first3 (v : json) : option json :=
  match v with
  | JStr s => Some (JStr (PyStr.take 3 s))
  | JArr l => Some (JArr (List.firstn 3 l))
  | _ => None
  end.

(** [', '.join(v)] *)
Definition join_items (v : json) : exn + string :=
  match str_items v with
  | Some l => inr (PyStr.join ", " l)
  | None => inl (TypeError "join: not an iterable of str")
  end.

(** [', '.join(v[:3])] *)
Definition join_first3 (v : json) : exn + string :=
  match first3 v with
  | Some v3 => join_items v3
  | None => inl (TypeError "object is not subscriptable")
  end.

(** [v[k]] *)
Definition subscript (v : json) (k : string) : exn + json :=
  match v with
  | JObj kvs => match dict_get k kvs with
                | Some x => inr x
                | None => inl (KeyError k)
                end
  | _ => inl (TypeError "object is not subscriptable by a str key")
  end.

(** [v.get(k, d)] *)
Definition get (v : json) (k : string) (d : json) : exn + json :=
  match v with
  | JObj kvs => inr (default d (dict_get k kvs))
  | _ => inl (AttributeError "object has no attribute 'get'")
  end.

(** [len(v)] *)
Definition len (v : json) : exn + Z :=
  match v with
  | JStr s => inr (Z.of_nat (String.length s))
  | JArr l => inr (Z.of_nat (length l))
  | JObj kvs => inr (Z.of_nat (length kvs))
  | _ => inl (TypeError "object has no len()")
  end.

End Py.

(** ** [pipeline/utils.py] *)

Module Utils.
Import PyStr.

Section Utils.

(** [json.loads]: the decoded value, or the text of the [JSONDecodeError] *)
Variable json_loads : string -> string + json.
(** [repr] of a [str] *)
Variable py_repr : string -> string.

(** the body of a [try: return json.loads(t) / except JSONDecodeError: pass] *)
Definition try_loads (t : string) : option json :=
  match json_loads t with
  | inr v => Some v
  | inl _ => None
  end.

(** Strategy 2, entered when the text contains a fence; [None] is falling
    through to Strategy 3. *)
Definition strategy_fences (cleaned_text : string) : option json :=
  if contains fence cleaned_text then
    let matches := Re.findall_first cleaned_text in
    match (match matches with
           | Some m0 => try_loads m0
           | None => None
           end) with
    | Some v => Some v
    | None =>
        let lines := split_nl cleaned_text in
        let cleaned_lines :=
          List.filter (fun line => negb (startswith fence (strip line))) lines in
        try_loads (join_nl cleaned_lines)
    end
  else None.

(** Strategy 3: from the first opening delimiter to the last matching
    closing one. *)
Definition strategy_brackets (context original_text cleaned_text : string)
  : exn + json :=
  let first_brace := find "{" cleaned_text in
  let first_bracket := find "[" cleaned_text in
  if ((first_brace =? -1) && (first_bracket =? -1))%Z then
    inl (ValueError ("No JSON found in " +:+ context +:+ ". Response: "
                       +:+ take 200 original_text +:+ "..."))
  else
    let '(start, end_char) :=
      if (first_brace =? -1)%Z then (first_bracket, "]"%char)
      else if (first_bracket =? -1)%Z then (first_brace, "}"%char)
      else let start := Z.min first_brace first_bracket in
           (start, if (start =? first_brace)%Z then "}"%char else "]"%char) in
    let end_ := rfind end_char cleaned_text in
    if ((end_ =? -1) || (end_ <? start))%Z then
      inl (ValueError ("Malformed JSON in " +:+ context +:+ ". Response: "
                         +:+ take 200 original_text +:+ "..."))
    else
      let json_str := slice cleaned_text start (end_ + 1) in
      match json_loads json_str with
      | inr v => inr v
      | inl e =>
          inl (ValueError ("Failed to parse JSON from " +:+ context +:+ ". "
                             +:+ "Extracted: " +:+ take 100 json_str +:+ "... "
                             +:+ "Error: " +:+ e))
      end.

Definition extract_json_from_response (response_text context : string)
  : exn + json :=
  if String.eqb response_text "" || String.eqb (strip response_text) "" then
    inl (ValueError ("Empty response received for " +:+ context))
  else
    let original_text := response_text in
    let cleaned_text := strip response_text in
    match try_loads cleaned_text with
    | Some v => inr v
    | None =>
        match strategy_fences cleaned_text with
        | Some v => inr v
        | None => strategy_brackets context original_text cleaned_text
        end
    end.

(** [repr] of a list of [str] *)
Definition repr_list (l : list string) : string :=
  "[" +:+ join ", " (py_repr <$> l) +:+ "]".

(** [[key for key in required_keys if key not in data]] *)
Definition missing_keys (kvs : list (string * json)) (required_keys : list string)
  : list string :=
  List.filter (fun key => negb (Py.dict_has key kvs)) required_keys.

Definition validate_dict_keys (data : json) (required_keys : list string)
    (context : string) : exn + unit :=
  match data with
  | JObj kvs =>
      match missing_keys kvs required_keys with
      | [] => inr tt
      | missing =>
          inl (ValueError (context +:+ " missing required keys: "
                             +:+ repr_list missing +:+ ". "
                             +:+ "Available keys: " +:+ repr_list (Py.dict_keys kvs)))
      end
  | _ =>
      inl (ValueError (context +:+ " must be a dictionary, got "
                         +:+ Py.type_repr data))
  end.

End Utils.
End Utils.

(** ** [config.py] *)

Module Config.

Definition MAX_TOKENS : Z := 2000.
Definition TEMPERATURE : Z * Z := (3, 10)%Z.      (* 0.3 *)

Definition OUTPUT_DIR : string := "outputs".

Definition CONTENT_TYPE_DIRS : list (string * string) :=
  [ ("match_report", "match_reports");
    ("transfer_news", "transfer_news");
    ("injury_update", "injury_updates");
    ("opinion_piece", "opinion_pieces");
    ("other", "other") ].

(** [table.get(k)] *)
Fixpoint table_get {V} (k : string) (table : list (string * V)) : option V :=
  match table with
  | [] => None
  | (k', v) :: rest => if String.eqb k' k then Some v else table_get k rest
  end.

End Config.

(** ** The world the pipeline acts on *)

(** a reading of [datetime.now()], through the three renderings the program
    takes of it *)
Record datetime : Type := {
  isoformat : string;        (* .isoformat() *)
  stamp_seconds : string;    (* .strftime("%Y%m%d_%H%M%S") *)
  stamp_micros : string      (* .strftime("%Y%m%d_%H%M%S_%f") *)
}.

(** the record [ContentRouter.route] writes *)
Record output_package : Type := {
  pkg_input_id : string;
  pkg_processed_at : string;
  pkg_content_type : string;
  pkg_classification : json;
  pkg_metadata : json;
  pkg_headlines : json;
  pkg_original_content : string;
  pkg_pipeline_version : string
}.

(** one line of the log, the dict [log_stage] serialises *)
Record log_entry : Type := {
  le_timestamp : string;
  le_stage : string;
  le_status : string;
  le_input_id : string;
  le_details : option (list (string * json))
}.

(** the five instruction templates of the extractor *)
Inductive template : Type :=
  | TMatchReport | TTransferNews | TInjuryUpdate | TOpinionPiece | TOther.

(** what a stage sends to the collaborator: the variable parts of its prompt *)
Inductive prompt : Type :=
  | ClassificationPrompt (content : string)
  | ExtractionPrompt (content : string) (t : template)
  | GenerationPrompt (content_type teams players : string)
      (competition : option json) (sentiment : json) (content_prefix : string).

Record request : Type := {
  req_prompt : prompt;
  req_temperature : Z * Z;     (* numerator, denominator *)
  req_max_tokens : Z
}.

(** The output directory: each existing sub-directory with its entries.  File
    names are single path components. *)
Abbreviation dirs := (gmap string (gmap string output_package)).

(** the dict [ContentPipeline.process] returns *)
Inductive pipeline_result : Type :=
  | Success (input_id : string) (classification metadata headlines : json)
      (output_path : string)
  | Failed (input_id error : string).

(** [r.get("status")] *)
Definition status (r : pipeline_result) : string :=
  match r with
  | Success _ _ _ _ _ => "success"
  | Failed _ _ => "failed"
  end.

(** [r.get("input_id")] *)
Definition result_id (r : pipeline_result) : string :=
  match r with
  | Success i _ _ _ _ | Failed i _ => i
  end.

(** an element of the batch: [{content, input_id?, source?}] *)
Record item : Type := {
  item_content : string;
  item_input_id : option string;
  item_source : option string
}.

Section World.

(** the collaborator and the clock, with their hidden state *)
Variables LLM Clock : Type.

Record world : Type := {
  w_dirs : dirs;
  w_log : list log_entry;
  w_llm : LLM;
  w_clock : Clock
}.

(** computations that read and write the world and may raise *)
Definition M (A : Type) : Type := world -> (exn + A) * world.

Definition ret {A} (a : A) : M A := fun w => (inr a, w).
Definition raise {A} (e : exn) : M A := fun w => (inl e, w).
Definition bind {A B} (m : M A) (k : A -> M B) : M B :=
  fun w => match m w with
           | (inr a, w') => k a w'
           | (inl e, w') => (inl e, w')
           end.
(** [try: m  except Exception as e: h e] *)
Definition try_except {A} (m : M A) (h : exn -> M A) : M A :=
  fun w => match m w with
           | (inr a, w') => (inr a, w')
           | (inl e, w') => h e w'
           end.
(** a pure step that may raise *)
Definition lift {A} (r : exn + A) : M A := fun w => (r, w).

End World.

Arguments w_dirs {LLM Clock}.
Arguments w_log {LLM Clock}.
Arguments w_llm {LLM Clock}.
Arguments w_clock {LLM Clock}.
Arguments ret {LLM Clock A}.
Arguments raise {LLM Clock A}.
Arguments bind {LLM Clock A B}.
Arguments try_except {LLM Clock A}.
Arguments lift {LLM Clock A}.

Declare Scope pipe_scope.
Delimit Scope pipe_scope with pipe.
Notation "'let!' x ':=' m 'in' k" := (bind m (fun x => k))
  (at level 10, x name, m at level 100, k at level 200) : pipe_scope.
Notation "'exec' m 'then' k" := (bind m (fun _ => k))
  (at level 10, m at level 100, k at level 200) : pipe_scope.

Local Open Scope pipe_scope.

Section Pipeline.

Variables LLM Clock : Type.
(** [datetime.now()] *)
Variable now : Clock -> datetime * Clock.
(** [client.messages.create(...)] followed by [response.content[0].text]:
    the reply text, or the exception either step raises *)
Variable create : request -> LLM -> (exn + string) * LLM.
Variable json_loads : string -> string + json.
Variable py_repr : string -> string.
(** [str] of a decoded value, as an f-string prints it *)
Variable py_str : json -> string.

Abbreviation M := (M LLM Clock).
Abbreviation world := (world LLM Clock).

Definition read_clock : M datetime :=
  fun w => let '(t, c) := now (w_clock w) in
           (inr t, {| w_dirs := w_dirs w; w_log := w_log w;
                      w_llm := w_llm w; w_clock := c |}).

Definition call_collaborator (r : request) : M string :=
  fun w => let '(reply, l) := create r (w_llm w) in
           (reply, {| w_dirs := w_dirs w; w_log := w_log w;
                      w_llm := l; w_clock := w_clock w |}).

Definition append_log (e : log_entry) : M unit :=
  fun w => (inr tt, {| w_dirs := w_dirs w; w_log := w_log w ++ [e];
                       w_llm := w_llm w; w_clock := w_clock w |}).

(** *** [pipeline/logger.py] *)

Definition log_stage (stage status input_id : string)
    (details : list (string * json)) : M unit :=
  let! t := read_clock in
  append_log {| le_timestamp := isoformat t; le_stage := stage;
                le_status := status; le_input_id := input_id;
                le_details := match details with
                              | [] => None
                              | _ => Some details
                              end |}.

Definition log_start (input_id : string) (source : option string) : M unit :=
  let details := match source with
                 | Some src => if String.eqb src "" then []
                               else [("source", JStr src)]
                 | None => []
                 end in
  log_stage "PROCESS_START" "SUCCESS" input_id details.

Definition log_complete (input_id output_path : string) : M unit :=
  log_stage "PROCESS_COMPLETE" "SUCCESS" input_id
    [("output_path", JStr output_path)].

Definition log_error (input_id stage : string) (error : exn) : M unit :=
  log_stage stage "FAILURE" input_id
    [("error", JStr (exn_str error));
     ("error_type", JStr (exn_type_name error))].

(** *** [pipeline/router.py] *)

(** [Path.mkdir(parents=True, exist_ok=True)] *)
Definition mkdir (d : string) (ds : dirs) : dirs :=
  match ds !! d with
  | Some _ => ds
  | None => <[d := ∅]> ds
  end.

(** [ContentRouter.__init__] *)
Definition router_init (ds : dirs) : dirs :=
  foldl (fun acc dir_name => mkdir dir_name acc) ds Config.CONTENT_TYPE_DIRS.*2.

(** [open(file_path, 'w')] and [json.dump]: creates the file or replaces
    its content; fails when the directory does not exist *)
Definition write_file (dir_name filename : string) (pkg : output_package)
  : M unit :=
  fun w => match w_dirs w !! dir_name with
           | Some entries =>
               (inr tt, {| w_dirs := <[dir_name := <[filename := pkg]> entries]> (w_dirs w);
                           w_log := w_log w; w_llm := w_llm w;
                           w_clock := w_clock w |})
           | None =>
               (inl (OSError ("No such file or directory: "
                                +:+ Config.OUTPUT_DIR +:+ "/" +:+ dir_name
                                +:+ "/" +:+ filename)), w)
           end.

(** [self.content_type_dirs.get(content_type, "other")] *)
Definition bucket_of (content_type : string) : string :=
  default "other" (Config.table_get content_type Config.CONTENT_TYPE_DIRS).

(** [ContentRouter.route] *)
Definition route (input_id content_type original_content : string)
    (classification metadata headlines : json) : M string :=
  try_except
    (let dir_name := bucket_of content_type in
     let! t1 := read_clock in
     let output_package :=
       {| pkg_input_id := input_id;
          pkg_processed_at := isoformat t1;
          pkg_content_type := content_type;
          pkg_classification := classification;
          pkg_metadata := metadata;
          pkg_headlines := headlines;
          pkg_original_content := original_content;
          pkg_pipeline_version := "1.0" |} in
     let! t2 := read_clock in
     let timestamp := stamp_seconds t2 in
     let filename := input_id +:+ "_" +:+ timestamp +:+ ".json" in
     let file_path := Config.OUTPUT_DIR +:+ "/" +:+ dir_name +:+ "/" +:+ filename in
     exec write_file dir_name filename output_package then
     exec log_stage "ROUTE" "SUCCESS" input_id
            [("destination", JStr dir_name); ("output_file", JStr file_path)] then
     ret file_path)
    (fun e =>
       exec log_error input_id "ROUTE" e then
       raise (Exception ("Routing failed: " +:+ exn_str e))).

(** [len(list(dir_path.glob("*.json")))] *)
Definition count_json (ds : dirs) (dir_name : string) : nat :=
  match ds !! dir_name with
  | Some entries =>
      size (filter (fun kv : string * output_package =>
                      Is_true (PyStr.endswith ".json" kv.1)) entries)
  | None => 0
  end.

(** [ContentRouter.get_routing_stats] *)
Definition get_routing_stats (ds : dirs) : list (string * nat) :=
  (fun '(content_type, dir_name) => (content_type, count_json ds dir_name))
    <$> Config.CONTENT_TYPE_DIRS.

(** *** [pipeline/classifier.py] *)

Definition valid_types : list string :=
  ["match_report"; "transfer_news"; "injury_update"; "opinion_piece"; "other"].

(** [v in valid_types] *)
Definition in_valid_types (v : json) : bool :=
  match v with
  | JStr s => bool_decide (s ∈ valid_types)
  | _ => false
  end.

(** [ContentClassifier.classify] *)
Definition classify (content input_id : string) : M json :=
  let prompt := ClassificationPrompt content in
  try_except
    (let! response_text :=
       call_collaborator {| req_prompt := prompt;
                            req_temperature := Config.TEMPERATURE;
                            req_max_tokens := Config.MAX_TOKENS |} in
     let! result :=
       lift (Utils.extract_json_from_response json_loads response_text
               ("classification for " +:+ input_id)) in
     exec lift (Utils.validate_dict_keys py_repr result
                  ["content_type"; "confidence"; "reasoning"]
                  "Classification result") then
     let! ct := lift (Py.subscript result "content_type") in
     exec (if in_valid_types ct then ret tt
           else raise (ValueError ("Invalid content_type: " +:+ py_str ct))) then
     let! confidence := lift (Py.subscript result "confidence") in
     exec log_stage "CLASSIFY" "SUCCESS" input_id
            [("content_type", ct); ("confidence", confidence)] then
     ret result)
    (fun e =>
       exec log_error input_id "CLASSIFY" e then
       match e with
       | JSONDecodeError _ =>
           raise (Exception ("Failed to parse classification response as JSON: " +:+ exn_str e))
       | _ => raise (Exception ("Classification failed: " +:+ exn_str e))
       end).

(** *** [pipeline/extractor.py] *)

(** the branch [_build_extraction_prompt] takes *)
Definition extraction_template (content_type : string) : template :=
  if String.eqb content_type "match_report" then TMatchReport
  else if String.eqb content_type "transfer_news" then TTransferNews
  else if String.eqb content_type "injury_update" then TInjuryUpdate
  else if String.eqb content_type "opinion_piece" then TOpinionPiece
  else TOther.

(** [MetadataExtractor.extract] *)
Definition extract (content content_type input_id : string) : M json :=
  let prompt := ExtractionPrompt content (extraction_template content_type) in
  try_except
    (let! response_text :=
       call_collaborator {| req_prompt := prompt;
                            req_temperature := Config.TEMPERATURE;
                            req_max_tokens := Config.MAX_TOKENS |} in
     let! metadata :=
       lift (Utils.extract_json_from_response json_loads response_text
               ("metadata extraction for " +:+ input_id)) in
     exec (match metadata with
           | JObj _ => ret tt
           | _ => raise (ValueError ("Expected a JSON object, got "
                                       +:+ Py.type_name metadata))
           end) then
     let! teams := lift (Py.get metadata "teams" (JArr [])) in
     let! teams_found := lift (Py.len teams) in
     let! players := lift (Py.get metadata "players" (JArr [])) in
     let! players_found := lift (Py.len players) in
     let! competition := lift (Py.get metadata "competition" (JStr "N/A")) in
     exec log_stage "EXTRACT" "SUCCESS" input_id
            [("teams_found", JInt teams_found);
             ("players_found", JInt players_found);
             ("competition", competition)] then
     ret metadata)
    (fun e =>
       exec log_error input_id "EXTRACT" e then
       match e with
       | JSONDecodeError _ =>
           raise (Exception ("Failed to parse metadata extraction response: " +:+ exn_str e))
       | _ => raise (Exception ("Metadata extraction failed: " +:+ exn_str e))
       end).

(** *** [pipeline/generator.py] *)

(** [_build_generation_prompt] *)
Definition build_generation_prompt (content : string) (metadata : json)
    (content_type : string) : exn + prompt :=
  match Py.get metadata "teams" (JArr []),
        Py.get metadata "players" (JArr []),
        Py.get metadata "competition" (JStr ""),
        Py.get metadata "sentiment" (JStr "neutral") with
  | inr teams, inr players, inr competition, inr sentiment =>
      match (if Py.truthy teams then Py.join_items teams else inr "N/A") with
      | inl e => inl e
      | inr teams_s =>
          match (if Py.truthy players then Py.join_first3 players
                 else inr "N/A") with
          | inl e => inl e
          | inr players_s =>
              inr (GenerationPrompt content_type teams_s players_s
                     (if Py.truthy competition then Some competition else None)
                     sentiment (PyStr.take 500 content))
          end
      end
  | inl e, _, _, _ | _, inl e, _, _ | _, _, inl e, _ | _, _, _, inl e => inl e
  end.

(** [HeadlineGenerator.generate] *)
Definition generate (content : string) (metadata : json)
    (content_type input_id : string) : M json :=
  let! prompt := lift (build_generation_prompt content metadata content_type) in
  try_except
    (let! response_text :=
       call_collaborator {| req_prompt := prompt;
                            req_temperature := (7, 10)%Z;
                            req_max_tokens := Config.MAX_TOKENS |} in
     let! headlines :=
       lift (Utils.extract_json_from_response json_loads response_text
               ("headline generation for " +:+ input_id)) in
     exec lift (Utils.validate_dict_keys py_repr headlines
                  ["neutral"; "fan_oriented"; "casual_viewer"]
                  "Headline generation result") then
     exec log_stage "GENERATE" "SUCCESS" input_id
            [("headline_count", JInt 3)] then
     ret headlines)
    (fun e =>
       exec log_error input_id "GENERATE" e then
       match e with
       | JSONDecodeError _ =>
           raise (Exception ("Failed to parse headline generation response: " +:+ exn_str e))
       | _ => raise (Exception ("Headline generation failed: " +:+ exn_str e))
       end).

(** *** [main.py] *)

(** [ContentPipeline.process], in three parts: the statements before the
    [try], the body of the [try], and the whole.  What the method prints is
    not modelled; the evaluation of the printed expressions is. *)
Definition begin_item (input_id source : option string) : M string :=
  let! input_id :=
    match input_id with
    | Some i => if String.eqb i "" then
                  let! t := read_clock in ret ("content_" +:+ stamp_micros t)
                else ret i
    | None => let! t := read_clock in ret ("content_" +:+ stamp_micros t)
    end in
  exec log_start input_id source then
  ret input_id.

Definition run_stages (content input_id : string) : M pipeline_result :=
  (* stage 1 *)
  let! classification := classify content input_id in
  let! ct := lift (Py.subscript classification "content_type") in
  let! content_type :=
    match ct with
    | JStr c => ret c
    | _ => raise (TypeError "content_type is not a str")
    end in
  let! _confidence := lift (Py.subscript classification "confidence") in
  let! _reasoning := lift (Py.subscript classification "reasoning") in
  (* stage 2 *)
  let! metadata := extract content content_type input_id in
  let! teams := lift (Py.get metadata "teams" (JArr [])) in
  let! _teams := lift (Py.join_items teams) in
  let! players := lift (Py.get metadata "players" (JArr [])) in
  let! _players := lift (Py.join_first3 players) in
  (* stage 3 *)
  let! headlines := generate content metadata content_type input_id in
  let! _neutral := lift (Py.subscript headlines "neutral") in
  let! _fan := lift (Py.subscript headlines "fan_oriented") in
  let! _casual := lift (Py.subscript headlines "casual_viewer") in
  (* stage 4 *)
  let! output_path :=
    route input_id content_type content classification metadata headlines in
  exec log_complete input_id output_path then
  ret (Success input_id classification metadata headlines output_path).

Definition process (content : string) (input_id source : option string)
  : M pipeline_result :=
  let! input_id := begin_item input_id source in
  try_except (run_stages content input_id)
    (fun e => ret (Failed input_id (exn_str e))).

(** the loop of [process_batch] *)
Fixpoint process_items (contents : list item) : M (list pipeline_result) :=
  match contents with
  | [] => ret []
  | it :: rest =>
      let! result := process (item_content it) (item_input_id it)
                       (item_source it) in
      let! results := process_items rest in
      ret (result :: results)
  end.

(** the figures [process_batch] prints after the loop *)
Definition batch_summary (results : list pipeline_result) : nat * nat * nat :=
  let successful :=
    length (List.filter (fun r => String.eqb (status r) "success") results) in
  let failed := length results - successful in
  (length results, successful, failed).

(** [ContentPipeline.process_batch]: the value returned is [results] *)
Definition process_batch (contents : list item) : M (list pipeline_result) :=
  let! results := process_items contents in
  let _summary := batch_summary results in
  let! _routing_stats := (fun w => (inr (get_routing_stats (w_dirs w)), w)) in
  ret results.

End Pipeline.

Arguments process {LLM Clock}.
Arguments begin_item {LLM Clock}.
Arguments run_stages {LLM Clock}.
Arguments get_routing_stats : simpl never.
Arguments process_items {LLM Clock}.
Arguments process_batch {LLM Clock}.
Arguments classify {LLM Clock}.
Arguments extract {LLM Clock}.
Arguments generate {LLM Clock}.
Arguments route {LLM Clock}.
Arguments log_stage {LLM Clock}.
Arguments log_error {LLM Clock}.
Arguments log_start {LLM Clock}.
Arguments log_complete {LLM Clock}.
Arguments read_clock {LLM Clock}.
Arguments call_collaborator {LLM Clock}.
Arguments append_log {LLM Clock}.
Arguments write_file {LLM Clock}.

(** ** A decoder, a clock and a collaborator to run the model with

    [Fragment.loads] decodes the part of JSON written with printable ASCII
    and no backtick, backslash-free strings and plain decimal numbers; it is
    the decoder of the examples.  [Scripted] replays a list of clock readings
    and a list of collaborator replies. *)

Module Fragment.
Import PyStr.

Definition json_ws (c : ascii) : bool :=
  let n := N_of_ascii c in ((n =? 32) || (n =? 9) || (n =? 10) || (n =? 13))%N.

Definition in_alphabet (c : ascii) : bool :=
  let n := N_of_ascii c in
  (json_ws c || ((33 <=? n) && (n <=? 126)))%N && negb (Ascii.eqb c backtick).

Fixpoint in_fragment (s : string) : bool :=
  match s with
  | EmptyString => true
  | String c s' => in_alphabet c && in_fragment s'
  end.

Fixpoint skip_ws (s : string) : string :=
  match s with
  | String c s' => if json_ws c then skip_ws s' else s
  | EmptyString => EmptyString
  end.

Definition quote : ascii := "034"%char.

Definition is_digit (c : ascii) : bool :=
  let n := N_of_ascii c in ((48 <=? n) && (n <=? 57))%N.

Definition digit_val (c : ascii) : Z := Z.of_N (N_of_ascii c) - 48.

(** digits at the head of [s]: their value, their number, and the rest *)
Fixpoint digits (s : string) (acc : Z) (n : nat) : Z * nat * string :=
  match s with
  | String c s' => if is_digit c then digits s' (10 * acc + digit_val c) (S n)
                   else (acc, n, s)
  | EmptyString => (acc, n, s)
  end.

(** a number without exponent: [-?digits(.digits)?] *)
Definition number (s : string) : option (json * string) :=
  let '(neg, s1) := match s with
                    | String "-" r => (true, r)
                    | _ => (false, s)
                    end in
  let sign := if neg : bool then (-1)%Z else 1%Z in
  match digits s1 0 0 with
  | (_, O, _) => None
  | (i, S _, String "." r) =>
      match digits r i 0 with
      | (_, O, _) => None
      | (m, S k, r') => Some (JFloat (sign * m) (- Z.of_nat (S k)), r')
      end
  | (i, S _, r) => Some (JInt (sign * i), r)
  end.

(** the characters of a string literal up to its closing quote *)
Fixpoint literal (s : string) : option (string * string) :=
  match s with
  | EmptyString => None
  | String c s' =>
      if Ascii.eqb c quote then Some (EmptyString, s')
      else if Ascii.eqb c "\" || (N_of_ascii c <? 32)%N then None
      else match literal s' with
           | Some (l, r) => Some (String c l, r)
           | None => None
           end
  end.

(** [d[k] = v] on a dict in insertion order *)
Fixpoint dict_set (k : string) (v : json) (kvs : list (string * json))
  : list (string * json) :=
  match kvs with
  | [] => [(k, v)]
  | (k', v') :: rest => if String.eqb k' k then (k', v) :: rest
                        else (k', v') :: dict_set k v rest
  end.

Fixpoint value (fuel : nat) (s : string) : option (json * string) :=
  match fuel with
  | O => None
  | S f =>
      match skip_ws s with
      | String "{" r =>
          match skip_ws r with
          | String "}" r' => Some (JObj [], r')
          | r1 => members f r1 []
          end
      | String "[" r =>
          match skip_ws r with
          | String "]" r' => Some (JArr [], r')
          | r1 => elements f r1 []
          end
      | String "034" r =>
          match literal r with
          | Some (l, r') => Some (JStr l, r')
          | None => None
          end
      | s1 =>
          if startswith "null" s1 then Some (JNull, drop 4 s1)
          else if startswith "true" s1 then Some (JBool true, drop 4 s1)
          else if startswith "false" s1 then Some (JBool false, drop 5 s1)
          else number s1
      end
  end
with elements (fuel : nat) (s : string) (acc : list json)
  : option (json * string) :=
  match fuel with
  | O => None
  | S f =>
      match value f s with
      | Some (v, r) =>
          match skip_ws r with
          | String "," r' => elements f r' (acc ++ [v])
          | String "]" r' => Some (JArr (acc ++ [v]), r')
          | _ => None
          end
      | None => None
      end
  end
with members (fuel : nat) (s : string) (acc : list (string * json))
  : option (json * string) :=
  match fuel with
  | O => None
  | S f =>
      match skip_ws s with
      | String "034" r =>
          match literal r with
          | Some (k, r1) =>
              match skip_ws r1 with
              | String ":" r2 =>
                  match value f r2 with
                  | Some (v, r3) =>
                      match skip_ws r3 with
                      | String "," r4 => members f r4 (dict_set k v acc)
                      | String "}" r4 => Some (JObj (dict_set k v acc), r4)
                      | _ => None
                      end
                  | None => None
                  end
              | _ => None
              end
          | None => None
          end
      | _ => None
      end
  end.

Definition loads (s : string) : string + json :=
  if in_fragment s then
    match value (S (String.length (strip s))) (strip s) with
    | Some (v, EmptyString) => inr v
    | Some (_, String _ _) => inl "Extra data"
    | None => inl "Expecting value"
    end
  else inl "Expecting value".

(** [repr] of a string of the fragment that holds no quote *)
Definition repr (s : string) : string := "'" +:+ s +:+ "'".

(** [str] of a decoded value, for strings and the three literals *)
Definition str (v : json) : string :=
  match v with
  | JStr s => s
  | JNull => "None"
  | JBool true => "True"
  | JBool false => "False"
  | _ => "..."
  end.

End Fragment.

Module Scripted.

Definition Clock : Type := list datetime.
Definition LLM : Type := list (exn + string).

Definition epoch : datetime :=
  {| isoformat := "1970-01-01T00:00:00";
     stamp_seconds := "19700101_000000";
     stamp_micros := "19700101_000000_000000" |}.

Definition now (c : Clock) : datetime * Clock :=
  match c with
  | t :: rest => (t, rest)
  | [] => (epoch, [])
  end.

(** a reading within the second 15:04:05 of 9 March 2024 *)
Definition within_second (micros : string) : datetime :=
  {| isoformat := "2024-03-09T15:04:05." +:+ micros;
     stamp_seconds := "20240309_150405";
     stamp_micros := "20240309_150405_" +:+ micros |}.

Definition create (_ : request) (l : LLM) : (exn + string) * LLM :=
  match l with
  | r :: rest => (r, rest)
  | [] => (inl (ExternalError "connection error"), [])
  end.

End Scripted.

(** ** Vocabulary of the statements *)

(** *** Fenced payloads *)

(** a payload in a fenced code block: the opening fence with its tag, the
    payload on the lines below, the closing fence on a line of its own *)
Definition fenced (tag payload : string) : string :=
  PyStr.fence +:+ tag +:+ String PyStr.nl (payload +:+ String PyStr.nl PyStr.fence).

(** a language tag: it stays on the line of the fence and holds no backtick *)
Definition is_tag (tag : string) : bool :=
  negb (PyStr.has_char PyStr.nl tag) && negb (PyStr.has_char PyStr.backtick tag).

(** the test of the line filter of Strategy 2:
    [not line.strip().startswith('```')] *)
Definition keep_line (line : string) : bool :=
  negb (PyStr.startswith PyStr.fence (PyStr.strip line)).

(** is there a double quote before the end of the line? *)
Fixpoint quote_ahead (s : string) : bool :=
  match s with
  | EmptyString => false
  | String c s' =>
      if Ascii.eqb c PyStr.nl then false
      else if Ascii.eqb c "034" then true
      else quote_ahead s'
  end.

(** every backtick of [s] has a double quote before it and one after it on
    its line; [seen] tells whether the line so far holds a double quote *)
Fixpoint backticks_quoted (seen : bool) (s : string) : bool :=
  match s with
  | EmptyString => true
  | String c s' =>
      if Ascii.eqb c PyStr.nl then backticks_quoted false s'
      else if Ascii.eqb c "034" then backticks_quoted true s'
      else if Ascii.eqb c PyStr.backtick
           then seen && quote_ahead s' && backticks_quoted seen s'
           else backticks_quoted seen s'
  end.

(** the request [classify] sends for a text *)
Definition classify_request (content : string) : request :=
  {| req_prompt := ClassificationPrompt content;
     req_temperature := Config.TEMPERATURE;
     req_max_tokens := Config.MAX_TOKENS |}.

(** the keys [classify] requires of the reply *)
Definition classification_keys : list string :=
  ["content_type"; "confidence"; "reasoning"].

Section Frames.
Context {LLM Clock : Type}.

(** what a step leaves untouched *)
Definition same_dirs (w w' : world LLM Clock) : Prop := w_dirs w' = w_dirs w.
Definition same_llm (w w' : world LLM Clock) : Prop := w_llm w' = w_llm w.

(** the entries a step appended to the log *)
Definition logged (w w' : world LLM Clock) (es : list log_entry) : Prop :=
  w_log w' = (w_log w ++ es)%list.

(** no entry of the router: [route] logs under the stage ROUTE on each of
    its paths, so a step that logs none has not called it *)
Definition no_route_entry (es : list log_entry) : Prop :=
  Forall (fun e => le_stage e <> "ROUTE") es.

(** a step that leaves the output directories alone and logs nothing of
    the router *)
Definition quiet (w w' : world LLM Clock) : Prop :=
  same_dirs w w' /\ exists es, logged w w' es /\ no_route_entry es.

Definition quietM {A} (m : M LLM Clock A) : Prop :=
  forall w r w', m w = (r, w') -> quiet w w'.
End Frames.

Section Stages.
Variables LLM Clock : Type.
Variable now : Clock -> datetime * Clock.
Variable create : request -> LLM -> (exn + string) * LLM.
Variable json_loads : string -> string + json.
Variable py_repr : string -> string.
Variable py_str : json -> string.

(** one of the three stages before the router raises, when the item
    [input_id] is run from the world [w] *)
Definition stage_raises (content input_id : string) (w : world LLM Clock)
  : Prop :=
  (exists e w1,
      classify now create json_loads py_repr py_str content input_id w
      = (inl e, w1))
  \/ (exists cls ct w1 e w2,
        classify now create json_loads py_repr py_str content input_id w
        = (inr cls, w1)
        /\ Py.subscript cls "content_type" = inr (JStr ct)
        /\ extract now create json_loads content ct input_id w1 = (inl e, w2))
  \/ (exists cls ct w1 md w2 e w3,
        classify now create json_loads py_repr py_str content input_id w
        = (inr cls, w1)
        /\ Py.subscript cls "content_type" = inr (JStr ct)
        /\ extract now create json_loads content ct input_id w1 = (inr md, w2)
        /\ generate now create json_loads py_repr content md ct input_id w2
           = (inl e, w3)).

(** the name of the file [route] writes for [input_id] from the world [w]:
    the stamp is the second reading of the clock *)
Definition route_file_name (input_id : string) (w : world LLM Clock) : string :=
  let '(_, c1) := now (w_clock w) in
  let '(t2, _) := now c1 in
  input_id +:+ "_" +:+ stamp_seconds t2 +:+ ".json".
End Stages.

Arguments stage_raises {LLM Clock}.
Arguments route_file_name {LLM Clock}.

(** is there an entry [name] in the directory [dir_name]? *)
Definition file_exists (ds : dirs) (dir_name name : string) : Prop :=
  exists entries, ds !! dir_name = Some entries /\ is_Some (entries !! name).

(** the counter [get_routing_stats] reports for a content type, if it
    reports one *)
Definition counter (ds : dirs) (content_type : string) : option nat :=
  Config.table_get content_type (get_routing_stats ds).

(** one call of [route] counted once: the counter of the content type goes
    up by one and no other counter moves *)
Definition counted_once (ds ds' : dirs) (content_type : string) : Prop :=
  exists n, counter ds content_type = Some n
            /\ counter ds' content_type = Some (S n)
            /\ forall ct', ct' <> content_type -> counter ds' ct' = counter ds ct'.

(** ** Worlds and replies of the examples *)

Module Examples.
Import Scripted.

(** a text with each apostrophe turned into a double quote *)
Fixpoint json_text (s : string) : string :=
  match s with
  | EmptyString => EmptyString
  | String c s' =>
      String (if Ascii.eqb c "'" then Fragment.quote else c) (json_text s')
  end.

(** the output directories right after [ContentRouter.__init__] *)
Definition fresh_dirs : dirs := router_init ∅.

Definition start (replies : LLM) (clock : Clock) : world LLM Clock :=
  {| w_dirs := fresh_dirs; w_log := []; w_llm := replies; w_clock := clock |}.

(** readings that all fall within one second *)
Definition one_second : Clock :=
  within_second <$> ["000100"; "000200"; "000300"; "000400"; "000500"; "000600";
                     "000700"; "000800"; "000900"; "001000"; "001100"; "001200"].

Definition classification_reply : string :=
  json_text "{'content_type': 'match_report', 'confidence': 0.95, 'reasoning': 'score and venue'}".

Definition metadata_reply : string :=
  json_text "{'teams': ['Team A', 'Team B'], 'players': [], 'competition': null, 'sentiment': 'positive', 'key_stats': {'score': '2-1', 'attendance': '50,000'}}".

Definition headlines_reply : string :=
  json_text "{'neutral': 'Team A beat Team B 2-1', 'fan_oriented': 'Team A triumph', 'casual_viewer': 'Team A edge past Team B'}".

(** a classification outside the enum *)
Definition rumour_reply : string :=
  json_text "{'content_type': 'rumour', 'confidence': 0.5, 'reasoning': 'unclear'}".

Definition scenario_a : LLM :=
  [inr classification_reply; inr metadata_reply; inr headlines_reply].

Definition report : string := "Team A beat Team B 2-1 ... attendance 50,000".

Definition run := process now create Fragment.loads Fragment.repr Fragment.str.
Definition run_batch :=
  process_batch now create Fragment.loads Fragment.repr Fragment.str.

End Examples.


(** ** Vocabulary of the further statements *)

(** an object text: a body between braces *)
Definition braced (body : string) : string := String "{" (body +:+ "}").

(** the request [extract] sends for a text of a content type *)
Definition extraction_request (content content_type : string) : request :=
  {| req_prompt := ExtractionPrompt content (extraction_template content_type);
     req_temperature := Config.TEMPERATURE;
     req_max_tokens := Config.MAX_TOKENS |}.

(** the request [generate] sends for a prompt *)
Definition generation_request (p : prompt) : request :=
  {| req_prompt := p;
     req_temperature := (7, 10)%Z;
     req_max_tokens := Config.MAX_TOKENS |}.

(** the keys [generate] requires of the reply *)
Definition headline_keys : list string :=
  ["neutral"; "fan_oriented"; "casual_viewer"].

(** the content of the file [name] of the directory [dir_name], if there *)
Definition file_at (ds : dirs) (dir_name name : string) : option output_package :=
  ds !! dir_name ≫= fun entries => entries !! name.

(** the sum of the counters of [get_routing_stats] *)
Definition total_routed (ds : dirs) : nat :=
  foldr Nat.add 0 (get_routing_stats ds).*2.

(** every bucket directory of the table exists *)
Definition buckets_exist (ds : dirs) : Prop :=
  Forall (fun dir_name => is_Some (ds !! dir_name)) Config.CONTENT_TYPE_DIRS.*2.

(** the number of results tagged success, as [process_batch] counts them *)
Definition successes (results : list pipeline_result) : nat :=
  length (List.filter (fun r => String.eqb (status r) "success") results).

Section Steps.
Context {LLM Clock : Type}.

(** every run of [m] relates the world before to the world after by [R] *)
Definition holdsM {A} (R : world LLM Clock -> world LLM Clock -> Prop)
    (m : M LLM Clock A) : Prop :=
  forall w r w', m w = (r, w') -> R w w'.

(** the log is only appended to, and with no entry of the stage [stage] *)
Definition never_logs (stage : string) (w w' : world LLM Clock) : Prop :=
  exists es, logged w w' es /\ Forall (fun l => le_stage l <> stage) es.

(** whenever [m] raises, the world before and the world after are related
    by [R] *)
Definition raisesM {A} (R : world LLM Clock -> world LLM Clock -> Prop)
    (m : M LLM Clock A) : Prop :=
  forall w e w', m w = (inl e, w') -> R w w'.

(** one file written into the directory [dir_name] under [name]: the entry
    is set, every other entry and directory is as it was *)
Definition wrote_file (ds ds' : dirs) (dir_name name : string)
    (pkg : output_package) : Prop :=
  exists entries, ds !! dir_name = Some entries
                  /\ ds' = <[dir_name := <[name := pkg]> entries]> ds.

(** a step that leaves directories and log as they are, whatever it returns *)
Definition silentM {A} (m : M LLM Clock A) : Prop :=
  forall w r w', m w = (r, w') -> w_dirs w' = w_dirs w /\ w_log w' = w_log w.

(** the shape of the log entry [log_error] writes for the exception [cause] *)
Definition failure_entry (l : log_entry) (cause : exn) : Prop :=
  le_status l = "FAILURE"
  /\ le_details l = Some [("error", JStr (exn_str cause));
                          ("error_type", JStr (exn_type_name cause))].

(** the body of the [try] of a stage: it logs one SUCCESS entry of the stage
    when it returns and nothing when it raises *)
Definition stage_body {A} (stage input_id : string) (m : M LLM Clock A) : Prop :=
  forall w r w', m w = (r, w') ->
    w_dirs w' = w_dirs w
    /\ match r with
       | inr _ => exists l, w_log w' = (w_log w ++ [l])%list
                            /\ le_stage l = stage /\ le_input_id l = input_id
                            /\ le_status l = "SUCCESS"
       | inl _ => w_log w' = w_log w
       end.

(** the contract of a stage client: directories untouched, one log entry of
    the stage, SUCCESS on return; on failure a FAILURE entry naming the
    cause, and an [Exception] whose text is a prefix, [parse_prefix] for a
    [JSONDecodeError] and [prefix] otherwise, followed by the text of the
    cause *)
Definition stage_contract {A} (stage input_id prefix parse_prefix : string)
    (m : M LLM Clock A) : Prop :=
  forall w r w', m w = (r, w') ->
    w_dirs w' = w_dirs w
    /\ exists l, w_log w' = (w_log w ++ [l])%list
                 /\ le_stage l = stage /\ le_input_id l = input_id
                 /\ match r with
                    | inr _ => le_status l = "SUCCESS"
                    | inl e =>
                        exists cause,
                          failure_entry l cause
                          /\ e = Exception
                                   ((match cause with
                                     | JSONDecodeError _ => parse_prefix
                                     | _ => prefix
                                     end) +:+ exn_str cause)
                    end.
End Steps.

(** ** Further worlds and batches of the examples *)

Module MoreExamples.
Import Scripted Examples.

(** a world whose output directories were never created *)
Definition bare : world LLM Clock :=
  {| w_dirs := ∅; w_log := []; w_llm := []; w_clock := one_second |}.

(** a batch of two items: one with an id, one without *)
Definition two_items : list item :=
  [ {| item_content := report; item_input_id := Some "item_1";
       item_source := None |};
    {| item_content := report; item_input_id := None;
       item_source := Some "feed" |} ].

End MoreExamples.


(** * Properties *)

(** ** Python strings *)

Module PyStrFacts.
Import PyStr.

Lemma find_from_absent c s i :
  has_char c s = false -> find_from c s i = (-1)%Z.
Proof.
  revert i. induction s as [|a s IH]; intros i H; simpl in *.
  - reflexivity.
  - apply orb_false_iff in H as [-> H]. now apply IH.
Qed.

Lemma find_absent c s : has_char c s = false -> find c s = (-1)%Z.
Proof. apply find_from_absent. Qed.

Lemma has_char_lstrip c s : has_char c s = false -> has_char c (lstrip s) = false.
Proof.
  induction s as [|a s IH]; simpl; intros H; [done|].
  destruct (is_space a); [|done].
  apply orb_false_iff in H as [_ H]. auto.
Qed.

Lemma has_char_rstrip c s : has_char c s = false -> has_char c (rstrip s) = false.
Proof.
  induction s as [|a s IH]; simpl; intros H; [done|].
  apply orb_false_iff in H as [Ha H]. specialize (IH H).
  destruct (rstrip s) eqn:E.
  - destruct (is_space a); simpl; [done|]. now rewrite Ha.
  - simpl in *. now rewrite Ha, IH.
Qed.

Lemma has_char_strip c s : has_char c s = false -> has_char c (strip s) = false.
Proof. intros H. unfold strip. now apply has_char_lstrip, has_char_rstrip. Qed.

End PyStrFacts.

(** ** [extract_json_from_response] *)

Section ExtractFacts.
Import PyStr PyStrFacts.

Variable json_loads : string -> string + json.

Abbreviation extract_json := (Utils.extract_json_from_response json_loads).
Abbreviation try_loads := (Utils.try_loads json_loads).

Lemma try_loads_Some t v : try_loads t = Some v <-> json_loads t = inr v.
Proof.
  unfold Utils.try_loads. destruct (json_loads t); split; congruence.
Qed.

(** [json.loads("")] raises: the empty text is not JSON *)
Hypothesis loads_empty : try_loads "" = None.

(** C3: when the trimmed text is valid JSON, extraction returns what the
    decoder returns on the trimmed text. *)
Theorem extract_direct_parse (text context : string) (v : json) :
  json_loads (strip text) = inr v ->
  extract_json text context = inr v.
Proof.
  intros Hv. unfold Utils.extract_json_from_response.
  assert (Hne : strip text <> "").
  { intros E. rewrite E in Hv. apply try_loads_Some in Hv. congruence. }
  assert (Hne' : text <> "") by (intros ->; now apply Hne).
  apply String.eqb_neq in Hne, Hne'. rewrite Hne, Hne'. simpl.
  apply try_loads_Some in Hv. now rewrite Hv.
Qed.

(** C5, amended: a text without opening brace or bracket that neither the
    direct parse nor the fence strategy decodes is rejected, as empty or
    as holding no JSON. *)
Theorem extract_no_brackets_fails (text context : string) :
  has_char "{" text = false ->
  has_char "[" text = false ->
  try_loads (strip text) = None ->
  Utils.strategy_fences json_loads (strip text) = None ->
  extract_json text context =
    inl (ValueError
           (if String.eqb text "" || String.eqb (strip text) ""
            then "Empty response received for " +:+ context
            else "No JSON found in " +:+ context +:+ ". Response: "
                   +:+ take 200 text +:+ "...")).
Proof.
  intros Hbrace Hbracket Hdirect Hfences.
  unfold Utils.extract_json_from_response.
  destruct (String.eqb text "" || String.eqb (strip text) ""); [done|].
  fold (try_loads (strip text)). rewrite Hdirect, Hfences.
  unfold Utils.strategy_brackets.
  rewrite (find_absent _ _ (has_char_strip _ _ Hbrace)).
  now rewrite (find_absent _ _ (has_char_strip _ _ Hbracket)).
Qed.

End ExtractFacts.

(** C5 as stated does not hold: the text [42] has neither delimiter, and the
    direct parse returns the number. *)
Lemma extract_scalar_without_brackets :
  ~ (forall text context : string,
        PyStr.has_char "{" text = false ->
        PyStr.has_char "[" text = false ->
        exists msg, Utils.extract_json_from_response Fragment.loads text context
                    = inl (ValueError msg)).
Proof.
  intros H. destruct (H "42" "API response" eq_refl eq_refl) as [msg Hmsg].
  vm_compute in Hmsg. discriminate.
Qed.

Lemma extract_direct_parse_witness :
  Utils.extract_json_from_response Fragment.loads
    (Examples.json_text "  {'neutral': 'United beat Liverpool'}  ") "API response"
  = inr (JObj [("neutral", JStr "United beat Liverpool")]).
Proof.
  apply (extract_direct_parse Fragment.loads); reflexivity.
Defined.

Lemma extract_no_brackets_fails_witness :
  Utils.extract_json_from_response Fragment.loads "I cannot classify this." "API response"
  = inl (ValueError
           "No JSON found in API response. Response: I cannot classify this....").
Proof.
  apply (extract_no_brackets_fails Fragment.loads); reflexivity.
Defined.

(** ** [validate_dict_keys] *)

Section ValidateFacts.

Variable py_repr : string -> string.

Abbreviation validate := (Utils.validate_dict_keys py_repr).

Lemma dict_has_keys k kvs : Py.dict_has k kvs = true <-> k ∈ Py.dict_keys kvs.
Proof.
  unfold Py.dict_has, Py.dict_keys. rewrite bool_decide_eq_true.
  induction kvs as [|[k' v] kvs IH]; simpl.
  - split; [intros [? ?]; discriminate | intros H; inversion H].
  - destruct (String.eqb_spec k' k) as [->|Hne].
    + split; [intros _; left | intros _; eauto].
    + rewrite IH. split; [intros H; now right|].
      intros H. inversion H; subst; [congruence | done].
Qed.

Lemma missing_keys_spec kvs required k :
  k ∈ Utils.missing_keys kvs required <->
  k ∈ required /\ k ∉ Py.dict_keys kvs.
Proof.
  unfold Utils.missing_keys. rewrite list_elem_of_In, filter_In, <- list_elem_of_In.
  rewrite negb_true_iff, <- dict_has_keys, not_true_iff_false. tauto.
Qed.

Lemma validate_raises_value_error data required context e :
  validate data required context = inl e -> exists msg, e = ValueError msg.
Proof.
  unfold Utils.validate_dict_keys. intros He.
  destruct data; try (inversion He; eauto; fail).
  destruct (Utils.missing_keys kvs required); inversion He; eauto.
Qed.


End ValidateFacts.

(** ** The stages and the orchestrator *)

Section ExtractContext.

Variable json_loads : string -> string + json.

(** the context only words the error message *)
Lemma extract_ok_any_context text c1 c2 v :
  Utils.extract_json_from_response json_loads text c1 = inr v ->
  Utils.extract_json_from_response json_loads text c2 = inr v.
Proof.
  unfold Utils.extract_json_from_response, Utils.strategy_brackets.
  repeat match goal with
         | |- context [if ?b then _ else _] => destruct b
         | |- context [match ?x with _ => _ end] => destruct x
         end; congruence.
Qed.

End ExtractContext.

Section PipelineFacts.

Variables LLM Clock : Type.
Variable now : Clock -> datetime * Clock.
Variable create : request -> LLM -> (exn + string) * LLM.
Variable json_loads : string -> string + json.
Variable py_repr : string -> string.
Variable py_str : json -> string.

Abbreviation world := (world LLM Clock).
Abbreviation classify := (classify now create json_loads py_repr py_str).
Abbreviation extract := (extract now create json_loads).
Abbreviation generate := (generate now create json_loads py_repr).
Abbreviation route := (route (LLM:=LLM) now).
Abbreviation process := (process now create json_loads py_repr py_str).
Abbreviation process_items := (process_items now create json_loads py_repr py_str).
Abbreviation process_batch := (process_batch now create json_loads py_repr py_str).

(** *** Steps that do not touch the output directories *)

Lemma quiet_refl (w : world) : quiet w w.
Proof.
  split; [reflexivity|]. exists []. split; [|constructor].
  unfold logged. now rewrite app_nil_r.
Qed.

Lemma quiet_trans (w1 w2 w3 : world) : quiet w1 w2 -> quiet w2 w3 -> quiet w1 w3.
Proof.
  intros [Hd1 (es1 & Hl1 & Hn1)] [Hd2 (es2 & Hl2 & Hn2)]. split.
  - unfold same_dirs in *. congruence.
  - exists (es1 ++ es2)%list. split.
    + unfold logged in *. now rewrite Hl2, Hl1, app_assoc.
    + now apply Forall_app.
Qed.

Lemma quietM_ret {A} (a : A) : quietM (ret (LLM:=LLM) (Clock:=Clock) a).
Proof. intros w r w' [= <- <-]. apply quiet_refl. Qed.

Lemma quietM_raise {A} e : quietM (@raise LLM Clock A e).
Proof. intros w r w' [= <- <-]. apply quiet_refl. Qed.

Lemma quietM_lift {A} (x : exn + A) : quietM (lift (LLM:=LLM) (Clock:=Clock) x).
Proof. intros w r w' [= <- <-]. apply quiet_refl. Qed.

Lemma quietM_bind {A B} (m : M LLM Clock A) (k : A -> M LLM Clock B) :
  quietM m -> (forall a, quietM (k a)) -> quietM (bind m k).
Proof.
  intros Hm Hk w r w'. unfold bind. destruct (m w) as [[e|a] w1] eqn:E.
  - intros [= <- <-]. eauto.
  - intros Hr. eapply quiet_trans; [eapply Hm | eapply Hk]; eauto.
Qed.

Lemma quietM_try {A} (m : M LLM Clock A) (h : exn -> M LLM Clock A) :
  quietM m -> (forall e, quietM (h e)) -> quietM (try_except m h).
Proof.
  intros Hm Hh w r w'. unfold try_except. destruct (m w) as [[e|a] w1] eqn:E.
  - intros Hr. eapply quiet_trans; [eapply Hm | eapply Hh]; eauto.
  - intros [= <- <-]. eauto.
Qed.

Lemma quietM_read_clock : quietM (LLM:=LLM) (read_clock now).
Proof.
  intros w r w'. unfold read_clock. destruct (now (w_clock w)) as [t c].
  intros [= <- <-]. split; [reflexivity|]. exists []. split; [|constructor].
  unfold logged. simpl. now rewrite app_nil_r.
Qed.

Lemma quietM_call r : quietM (Clock:=Clock) (call_collaborator create r).
Proof.
  intros w x w'. unfold call_collaborator.
  destruct (create r (w_llm w)) as [reply l].
  intros [= <- <-]. split; [reflexivity|]. exists []. split; [|constructor].
  unfold logged. simpl. now rewrite app_nil_r.
Qed.

Lemma quietM_log_stage stage st id details :
  stage <> "ROUTE" -> quietM (LLM:=LLM) (log_stage now stage st id details).
Proof.
  intros Hst w r w'. unfold log_stage, bind, read_clock, append_log.
  destruct (now (w_clock w)) as [t c]. simpl.
  intros [= <- <-]. split; [reflexivity|].
  eexists [_]. split; [reflexivity|]. repeat constructor. exact Hst.
Qed.

Lemma quietM_log_error id stage e :
  stage <> "ROUTE" -> quietM (LLM:=LLM) (log_error now id stage e).
Proof. apply quietM_log_stage. Qed.

Ltac quiet_steps :=
  repeat first
    [ apply quietM_ret | apply quietM_raise | apply quietM_lift
    | apply quietM_read_clock | apply quietM_call
    | apply quietM_log_stage; discriminate
    | apply quietM_log_error; discriminate
    | apply quietM_bind | apply quietM_try
    | match goal with
      | |- forall _, quietM _ => intro
      | |- quietM (match ?x with _ => _ end) => destruct x
      | |- quietM (if ?b then _ else _) => destruct b
      end ].

Lemma quietM_classify content id : quietM (classify content id).
Proof. unfold classify. quiet_steps. Qed.

Lemma quietM_extract content ct id : quietM (extract content ct id).
Proof. unfold extract. quiet_steps. Qed.

Lemma quietM_generate content md ct id : quietM (generate content md ct id).
Proof. unfold generate. quiet_steps. Qed.

Lemma quietM_begin_item iid src : quietM (LLM:=LLM) (begin_item now iid src).
Proof. unfold begin_item, log_start. quiet_steps. Qed.

(** the statements before the [try] never raise, and do not consult the
    collaborator *)
Lemma begin_item_returns iid src (w : world) :
  exists id w0, begin_item now iid src w = (inr id, w0) /\ same_llm w w0.
Proof.
  unfold begin_item, log_start, log_stage, bind, read_clock, append_log, ret.
  destruct iid as [i|]; [destruct (String.eqb i "")|];
    repeat (simpl; match goal with
                   | |- context [now ?c] => destruct (now c)
                   end); simpl; do 2 eexists; split; reflexivity.
Qed.

Lemma begin_item_given_id i src (w : world) id w0 :
  i <> "" -> begin_item now (Some i) src w = (inr id, w0) -> id = i.
Proof.
  intros Hi%String.eqb_neq.
  unfold begin_item, log_start, log_stage, bind, read_clock, append_log, ret.
  rewrite Hi. destruct (now (w_clock w)). simpl. congruence.
Qed.

(** [process] as the handler applied to the outcome of the stages *)
Lemma process_after_begin content iid src (w : world) id w0 :
  begin_item now iid src w = (inr id, w0) ->
  process content iid src w =
    match run_stages now create json_loads py_repr py_str content id w0 with
    | (inr r, w') => (inr r, w')
    | (inl e, w') => (inr (Failed id (exn_str e)), w')
    end.
Proof.
  intros Hb. unfold process, bind, try_except. rewrite Hb.
  destruct (run_stages _ _ _ _ _ _ _ _) as [[e|r] w']; reflexivity.
Qed.

(** when a stage before the router raises, the stages end in an
    exception and have been quiet *)
Lemma run_stages_stage_raises content id (w0 : world) :
  stage_raises now create json_loads py_repr py_str content id w0 ->
  exists e w1,
    run_stages now create json_loads py_repr py_str content id w0 = (inl e, w1)
    /\ quiet w0 w1.
Proof.
  intros [(e & w1 & Hc) | [(cls & ct & w1 & e & w2 & Hc & Hct & He)
                         | (cls & ct & w1 & md & w2 & e & w3 & Hc & Hct & He & Hg)]];
    pose proof (quietM_classify content id _ _ _ Hc) as Q1;
    unfold run_stages, bind, lift, ret; rewrite Hc.
  - eauto.
  - rewrite Hct.
    repeat match goal with
           | |- context [match Py.subscript ?a ?b with _ => _ end] =>
               destruct (Py.subscript a b); [eauto|]
           end.
    rewrite He. pose proof (quietM_extract _ _ _ _ _ _ He).
    eauto using quiet_trans.
  - rewrite Hct.
    repeat match goal with
           | |- context [match Py.subscript ?a ?b with _ => _ end] =>
               destruct (Py.subscript a b); [eauto|]
           end.
    rewrite He. pose proof (quietM_extract _ _ _ _ _ _ He) as Q2.
    pose proof (quiet_trans _ _ _ Q1 Q2) as Q12.
    repeat match goal with
           | |- context [match ?x with inl _ => _ | inr _ => _ end] =>
               lazymatch x with
               | Py.get _ _ _ => destruct x; [eauto|]
               | Py.join_items _ => destruct x; [eauto|]
               | Py.join_first3 _ => destruct x; [eauto|]
               end
           end.
    rewrite Hg. pose proof (quietM_generate _ _ _ _ _ _ _ Hg).
    eauto using quiet_trans.
Qed.


(** *** The classifier on a value outside the enum *)

Lemma classify_invalid content id (w : world) reply llm' ctx kvs ct :
  create (classify_request content) (w_llm w) = (inr reply, llm') ->
  Utils.extract_json_from_response json_loads reply ctx = inr (JObj kvs) ->
  Py.dict_get "content_type" kvs = Some ct ->
  in_valid_types ct = false ->
  let e := match Utils.validate_dict_keys py_repr (JObj kvs)
                   classification_keys "Classification result" with
           | inl e => e
           | inr _ => ValueError ("Invalid content_type: " +:+ py_str ct)
           end in
  exists w1,
    classify content id w
    = (inl (Exception ("Classification failed: " +:+ exn_str e)), w1)
    /\ exists l, last (w_log w1) = Some l
                 /\ le_stage l = "CLASSIFY" /\ le_status l = "FAILURE"
                 /\ le_details l = Some [("error", JStr (exn_str e));
                                         ("error_type", JStr "ValueError")].
Proof.
  intros Hcall Hparse Hct Hbad e.
  pose proof (extract_ok_any_context json_loads reply ctx
                ("classification for " +:+ id) _ Hparse) as Hparse'.
  unfold classify, try_except, bind, call_collaborator, lift.
  fold (classify_request content). rewrite Hcall. simpl. rewrite Hparse'.
  subst e. unfold classification_keys.
  destruct (Utils.validate_dict_keys py_repr (JObj kvs) _ _) as [e|[]] eqn:Hv.
  - destruct (validate_raises_value_error _ _ _ _ _ Hv) as [msg ->].
    unfold log_error, log_stage, bind, read_clock, append_log, raise. simpl.
    destruct (now _) as [t c]. simpl.
    eexists; split; [reflexivity|]. simpl. rewrite last_snoc. eauto 10.
  - simpl. rewrite Hct. unfold ret, raise. rewrite Hbad.
    unfold log_error, log_stage, bind, read_clock, append_log, raise. simpl.
    destruct (now _) as [t c]. simpl.
    eexists; split; [reflexivity|]. simpl. rewrite last_snoc. eauto 10.
Qed.


(** what [classify] returns has a [content_type] among the five, so the
    projection to a string in [run_stages] never raises *)
Lemma bind_returns {A B} (m : M LLM Clock A) (k : A -> M LLM Clock B) w b w' :
  bind m k w = (inr b, w') ->
  exists a w1, m w = (inr a, w1) /\ k a w1 = (inr b, w').
Proof.
  unfold bind. destruct (m w) as [[e|a] w1]; [discriminate | eauto].
Qed.

Lemma try_except_returns {A} (m : M LLM Clock A) (h : exn -> M LLM Clock A) w a w' :
  (forall e w1, exists e' w2, h e w1 = (inl e', w2)) ->
  try_except m h w = (inr a, w') -> m w = (inr a, w').
Proof.
  intros Hh. unfold try_except. destruct (m w) as [[e|x] w1]; [|done].
  destruct (Hh e w1) as (e' & w2 & ->). discriminate.
Qed.

Lemma classify_returns_valid content id (w : world) cls w' :
  classify content id w = (inr cls, w') ->
  exists ct, Py.subscript cls "content_type" = inr (JStr ct) /\ ct ∈ valid_types.
Proof.
  unfold classify. intros H. apply try_except_returns in H.
  - apply bind_returns in H as (reply & w1 & _ & H).
    apply bind_returns in H as (result & w2 & _ & H).
    apply bind_returns in H as ([] & w3 & _ & H).
    apply bind_returns in H as (ct & w4 & Hct & H).
    apply bind_returns in H as ([] & w5 & Hv & H).
    apply bind_returns in H as (cf & w6 & _ & H).
    apply bind_returns in H as ([] & w7 & _ & H).
    injection H as <- <-. injection Hct as Hct _.
    destruct (in_valid_types ct) eqn:E; [|discriminate Hv].
    destruct ct; try discriminate E. exists s. split; [exact Hct|].
    now apply bool_decide_eq_true in E.
  - intros e w1. unfold bind.
    destruct (log_error now id "CLASSIFY" e w1) as [[e0|[]] w2]; [eauto|].
    destruct e; unfold raise; eauto.
Qed.

(** *** The batch *)

Lemma run_stages_result content id (w0 : world) r w' :
  run_stages now create json_loads py_repr py_str content id w0 = (inr r, w') ->
  status r = "success" /\ result_id r = id.
Proof.
  unfold run_stages, bind, lift, ret, raise. intros H.
  repeat match type of H with
         | (let (_, _) := ?x in _) = _ => destruct x as [[?|?] ?]
         | match ?x with _ => _ end = _ => destruct x
         end; try discriminate.
  injection H as <- <-. split; reflexivity.
Qed.

(** [process] always returns a result, tagged success or failed, that
    carries the identifier it was given *)
Lemma process_returns content iid src (w : world) :
  exists r w', process content iid src w = (inr r, w')
               /\ (status r = "success" \/ status r = "failed")
               /\ (forall i, iid = Some i -> i <> "" -> result_id r = i).
Proof.
  destruct (begin_item_returns iid src w) as (id & w0 & Hb & _).
  rewrite (process_after_begin _ _ _ _ _ _ Hb).
  assert (Hid : forall i, iid = Some i -> i <> "" -> id = i).
  { intros i -> Hi. eapply begin_item_given_id; eauto. }
  destruct (run_stages _ _ _ _ _ _ _ _) as [[e|r] w'] eqn:Hr.
  - do 2 eexists; split; [reflexivity|]. split; [now right | exact Hid].
  - apply run_stages_result in Hr as [Hs Hi].
    do 2 eexists; split; [reflexivity|]. split; [now left|].
    intros i H1 H2. rewrite Hi. eauto.
Qed.

Lemma process_items_returns contents (w : world) :
  exists results w',
    process_items contents w = (inr results, w')
    /\ Forall2 (fun it r =>
                  (status r = "success" \/ status r = "failed")
                  /\ forall i, item_input_id it = Some i -> i <> "" ->
                               result_id r = i) contents results.
Proof.
  revert w. induction contents as [|it rest IH]; intros w; simpl.
  - exists [], w. split; [reflexivity | constructor].
  - destruct (process_returns (item_content it) (item_input_id it)
                (item_source it) w) as (r & w1 & Hp & Hst & Hid).
    destruct (IH w1) as (rs & w' & Hrs & Hall).
    exists (r :: rs), w'. unfold bind. rewrite Hp, Hrs. split; [reflexivity|].
    constructor; auto.
Qed.

(** the loop runs the items one after the other, each from the world the
    previous ones left *)
Lemma process_items_app before after (w : world) :
  process_items (before ++ after) w =
    match process_items before w with
    | (inr rs1, w1) =>
        match process_items after w1 with
        | (inr rs2, w2) => (inr (rs1 ++ rs2)%list, w2)
        | (inl e, w2) => (inl e, w2)
        end
    | (inl e, w1) => (inl e, w1)
    end.
Proof.
  revert w. induction before as [|it rest IH]; intros w; simpl.
  - unfold ret. now destruct (process_items after w) as [[e|rs] w2].
  - unfold bind, ret.
    destruct (process _ _ _ w) as [[e|r] w1]; [reflexivity|].
    rewrite IH.
    destruct (process_items rest w1) as [[e|rs1] w2]; [reflexivity|].
    now destruct (process_items after w2) as [[e|rs2] w3].
Qed.

Lemma batch_summary_counts (results : list pipeline_result) :
  Forall (fun r => status r = "success" \/ status r = "failed") results ->
  batch_summary results =
    (length results,
     length (List.filter (fun r => String.eqb (status r) "success") results),
     length (List.filter (fun r => String.eqb (status r) "failed") results)).
Proof.
  unfold batch_summary. intros Hall. do 2 f_equal.
  induction Hall as [|r rs [Hr|Hr] _ IH]; simpl; [reflexivity| |]; rewrite Hr; simpl.
  - rewrite <- IH.
    pose proof (List.filter_length_le
                  (fun r => String.eqb (status r) "success") rs). lia.
  - pose proof (List.filter_length_le
                  (fun r => String.eqb (status r) "success") rs). lia.
Qed.


End PipelineFacts.

(** ** The router *)

Module RouterFacts.

Lemma length_append (a b : string) :
  String.length (a +:+ b) = String.length a + String.length b.
Proof. induction a; simpl; auto. Qed.

Lemma drop_append (a b : string) : PyStr.drop (String.length a) (a +:+ b) = b.
Proof. induction a; simpl; auto. Qed.

Lemma startswith_refl (p : string) : PyStr.startswith p p = true.
Proof. induction p; simpl; auto. now rewrite Ascii.eqb_refl. Qed.

Lemma endswith_append (a p : string) : PyStr.endswith p (a +:+ p) = true.
Proof.
  unfold PyStr.endswith. rewrite length_append.
  replace (String.length a + String.length p - String.length p)
    with (String.length a) by lia.
  rewrite drop_append, startswith_refl. simpl. apply Nat.leb_le. lia.
Qed.

Lemma append_assoc (a b c : string) : (a +:+ b) +:+ c = a +:+ (b +:+ c).
Proof.
  induction a as [|x a IH]; [reflexivity|].
  change (String x ((a +:+ b) +:+ c) = String x (a +:+ (b +:+ c))).
  now rewrite IH.
Qed.

(** the files [count_json] counts *)
Abbreviation json_named :=
  (fun kv : string * output_package => Is_true (PyStr.endswith ".json" kv.1)).

Lemma count_json_files (ds : dirs) (d : string) :
  count_json ds d =
    match ds !! d with
    | Some entries => length (filter json_named (map_to_list entries))
    | None => 0
    end.
Proof.
  unfold count_json. destruct (ds !! d) as [entries|]; [|reflexivity].
  rewrite map_filter_alt, map_size_list_to_map; [reflexivity|].
  eapply NoDup_fmap_fst.
  - intros k x y Hx%list_elem_of_filter Hy%list_elem_of_filter.
    destruct Hx as [_ Hx], Hy as [_ Hy].
    apply elem_of_map_to_list in Hx, Hy. congruence.
  - apply NoDup_filter, NoDup_map_to_list.
Qed.

Lemma count_json_mkdir (ds : dirs) (d d' : string) :
  count_json (mkdir d ds) d' = count_json ds d'.
Proof.
  unfold mkdir. destruct (ds !! d) eqn:E; [reflexivity|].
  unfold count_json. destruct (decide (d = d')) as [->|Hne].
  - rewrite lookup_insert_eq, E. now rewrite map_filter_empty, map_size_empty.
  - now rewrite lookup_insert_ne.
Qed.

(** the effect of writing the file [fn] into the directory [dir] *)
Lemma count_json_write (ds : dirs) dir entries fn pkg d' :
  ds !! dir = Some entries ->
  PyStr.endswith ".json" fn = true ->
  count_json (<[dir := <[fn := pkg]> entries]> ds) d' =
    if decide (d' = dir)
    then match entries !! fn with
         | Some _ => count_json ds dir
         | None => S (count_json ds dir)
         end
    else count_json ds d'.
Proof.
  intros Hdir Hfn. unfold count_json. case_decide as Hd.
  - subst d'. rewrite lookup_insert_eq, Hdir.
    rewrite map_filter_insert_True by (simpl; now rewrite Hfn).
    rewrite map_size_insert.
    destruct (entries !! fn) as [old|] eqn:E.
    + assert (Hf : filter json_named entries !! fn = Some old).
      { apply map_lookup_filter_Some. split; [done|]. simpl. now rewrite Hfn. }
      now rewrite Hf.
    + assert (Hf : filter json_named entries !! fn = None).
      { apply map_lookup_filter_None. now left. }
      now rewrite Hf.
  - now rewrite lookup_insert_ne.
Qed.

Lemma table_get_fmap {V W} (f : V -> W) k (t : list (string * V)) :
  Config.table_get k ((fun '(c, d) => (c, f d)) <$> t) = f <$> Config.table_get k t.
Proof.
  induction t as [|[c d] t IH]; simpl; [reflexivity|].
  now destruct (String.eqb c k).
Qed.

Lemma counter_table (ds : dirs) ct :
  counter ds ct = count_json ds <$> Config.table_get ct Config.CONTENT_TYPE_DIRS.
Proof. unfold counter. unfold get_routing_stats. apply table_get_fmap. Qed.

(** distinct content types have distinct directories *)
Lemma table_dirs_injective ct ct' d :
  Config.table_get ct Config.CONTENT_TYPE_DIRS = Some d ->
  Config.table_get ct' Config.CONTENT_TYPE_DIRS = Some d ->
  ct = ct'.
Proof.
  unfold Config.CONTENT_TYPE_DIRS. cbn -[String.eqb].
  repeat match goal with
         | |- context [String.eqb ?a ?b] => destruct (String.eqb_spec a b)
         end; intros H1 H2; subst; congruence.
Qed.

Lemma bucket_of_known ct d :
  Config.table_get ct Config.CONTENT_TYPE_DIRS = Some d -> bucket_of ct = d.
Proof. unfold bucket_of. now intros ->. Qed.

Lemma bucket_of_unknown ct :
  Config.table_get ct Config.CONTENT_TYPE_DIRS = None -> bucket_of ct = "other".
Proof. unfold bucket_of. now intros ->. Qed.

(** C10: the stats are the numbers of [.json] entries of the five bucket
    directories, a function of the directories alone; constructing a router
    keeps every file and every count. *)
Theorem routing_stats_count_files (ds : dirs) :
  get_routing_stats ds =
    [ ("match_report", count_json ds "match_reports");
      ("transfer_news", count_json ds "transfer_news");
      ("injury_update", count_json ds "injury_updates");
      ("opinion_piece", count_json ds "opinion_pieces");
      ("other", count_json ds "other") ]
  /\ (forall d, count_json ds d =
                  match ds !! d with
                  | Some entries => length (filter json_named (map_to_list entries))
                  | None => 0
                  end)
  /\ (forall d entries, ds !! d = Some entries ->
                        router_init ds !! d = Some entries)
  /\ get_routing_stats (router_init ds) = get_routing_stats ds.
Proof.
  split; [reflexivity|]. split; [apply count_json_files|]. split.
  - intros d entries Hd. unfold router_init. simpl.
    repeat match goal with
           | |- context [mkdir ?x ?m] =>
               lazymatch m with
               | context [mkdir] => fail
               | _ => assert (mkdir x m !! d = Some entries) as Hd'
                        by (unfold mkdir; destruct (m !! x) eqn:?; [done|];
                            rewrite lookup_insert_ne; [done | congruence]);
                      clear Hd; rename Hd' into Hd;
                      generalize dependent (mkdir x m); intros
               end
           end.
    exact Hd.
  - unfold router_init, get_routing_stats. simpl.
    now rewrite !count_json_mkdir.
Qed.

Section Route.

Variables LLM Clock : Type.
Variable now : Clock -> datetime * Clock.

Abbreviation world := (world LLM Clock).
Abbreviation route := (route (LLM:=LLM) now).

(** what [route] does: when the bucket directory exists, it writes one
    file there, under the name [route_file_name], and returns its path;
    otherwise it raises and leaves the directories as they were *)
Lemma route_run id ct content cls md hl (w : world) :
  let dir := bucket_of ct in
  let fn := route_file_name now id w in
  match w_dirs w !! dir with
  | Some entries =>
      exists pkg w',
        route id ct content cls md hl w
        = (inr (Config.OUTPUT_DIR +:+ "/" +:+ dir +:+ "/" +:+ fn), w')
        /\ w_dirs w' = <[dir := <[fn := pkg]> entries]> (w_dirs w)
        /\ pkg_input_id pkg = id /\ pkg_content_type pkg = ct
        /\ pkg_classification pkg = cls /\ pkg_metadata pkg = md
        /\ pkg_headlines pkg = hl /\ pkg_original_content pkg = content
  | None =>
      exists msg w',
        route id ct content cls md hl w = (inl (Exception msg), w')
        /\ w_dirs w' = w_dirs w
  end.
Proof.
  intros dir fn. subst dir fn.
  unfold route, route_file_name, log_error, log_stage.
  unfold try_except, bind, read_clock, write_file, append_log, ret, raise.
  destruct (now (w_clock w)) as [t1 c1]. simpl.
  destruct (now c1) as [t2 c2]. simpl.
  destruct (w_dirs w !! bucket_of ct) as [entries|] eqn:Hdir; simpl.
  - destruct (now c2) as [t3 c3]. simpl.
    do 2 eexists. split; [reflexivity|]. simpl. repeat split.
  - destruct (now c2) as [t3 c3]. simpl.
    do 2 eexists. split; reflexivity.
Qed.

Lemma route_file_name_json id (w : world) :
  PyStr.endswith ".json" (route_file_name now id w) = true.
Proof.
  unfold route_file_name. destruct (now (w_clock w)) as [t1 c1].
  destruct (now c1) as [t2 c2].
  change (id +:+ "_" +:+ stamp_seconds t2 +:+ ".json")
    with (id +:+ ("_" +:+ (stamp_seconds t2 +:+ ".json"))).
  rewrite <- !append_assoc. apply endswith_append.
Qed.

(** the counts after a successful [route] *)
Lemma route_counts id ct content cls md hl (w w' : world) path d' :
  route id ct content cls md hl w = (inr path, w') ->
  exists entries,
    w_dirs w !! bucket_of ct = Some entries
    /\ count_json (w_dirs w') d' =
         if decide (d' = bucket_of ct)
         then match entries !! route_file_name now id w with
              | Some _ => count_json (w_dirs w) (bucket_of ct)
              | None => S (count_json (w_dirs w) (bucket_of ct))
              end
         else count_json (w_dirs w) d'.
Proof.
  intros Hr. pose proof (route_run id ct content cls md hl w) as Hrun.
  simpl in Hrun. destruct (w_dirs w !! bucket_of ct) as [entries|] eqn:Hdir.
  - destruct Hrun as (pkg & w1 & Hr1 & Hd & _). rewrite Hr1 in Hr.
    injection Hr as _ <-. exists entries. split; [reflexivity|].
    rewrite Hd. apply count_json_write; [exact Hdir|].
    apply route_file_name_json.
  - destruct Hrun as (msg & w1 & Hr1 & _). congruence.
Qed.


(** the fallback: a content type that is no key of the table goes to the
    directory "other", whose count goes up when the file name is new *)
Lemma route_unknown_type id ct content cls md hl (w : world) entries :
  Config.table_get ct Config.CONTENT_TYPE_DIRS = None ->
  w_dirs w !! "other" = Some entries ->
  exists pkg w',
    route id ct content cls md hl w
    = (inr (Config.OUTPUT_DIR +:+ "/" +:+ "other" +:+ "/"
              +:+ route_file_name now id w), w')
    /\ w_dirs w' !! "other" = Some (<[route_file_name now id w := pkg]> entries)
    /\ pkg_input_id pkg = id /\ pkg_content_type pkg = ct
    /\ pkg_original_content pkg = content
    /\ counter (w_dirs w') "other" =
         Some (match entries !! route_file_name now id w with
               | Some _ => count_json (w_dirs w) "other"
               | None => S (count_json (w_dirs w) "other")
               end).
Proof.
  intros Hct Hother. pose proof (route_run id ct content cls md hl w) as Hrun.
  simpl in Hrun. rewrite (bucket_of_unknown _ Hct), Hother in Hrun.
  destruct Hrun as (pkg & w' & Hr & Hd & Hid & Hty & _ & _ & _ & Hcontent).
  exists pkg, w'. split; [exact Hr|]. split; [now rewrite Hd, lookup_insert_eq|].
  repeat split; try assumption.
  rewrite counter_table. cbn -[count_json]. f_equal.
  rewrite Hd, (count_json_write _ _ _ _ _ _ Hother (route_file_name_json id w)).
  now rewrite decide_True.
Qed.

End Route.

End RouterFacts.


(** ** The statements on concrete runs *)

Module Runs.
Import Examples Scripted.
Import RouterFacts.

Abbreviation route := (route (LLM:=LLM) now).





(** C7 on two records of an unknown content type that share identifier and
    second: both calls succeed and return one path; after the second call
    the bucket "other" holds one file, with the second text, and its counter
    is 1 as after the first. *)
Theorem fallback_overwrites_within_a_second :
  exists path w1 w2 pkg,
    route "item_1" "breaking_news" "first text" JNull JNull JNull
      (start [] one_second) = (inr path, w1)
    /\ route "item_1" "breaking_news" "second text" JNull JNull JNull w1
       = (inr path, w2)
    /\ counter (w_dirs w1) "other" = Some 1
    /\ counter (w_dirs w2) "other" = Some 1
    /\ w_dirs w2 !! "other" = Some {[ "item_1_20240309_150405.json" := pkg ]}
    /\ pkg_original_content pkg = "second text".
Proof.
  do 4 eexists. split; [vm_compute; reflexivity|].
  split; [vm_compute; reflexivity|].
  split; [vm_compute; reflexivity|].
  split; [vm_compute; reflexivity|].
  split; [vm_compute; reflexivity|]. reflexivity.
Qed.


(** scenario A: valid replies at the three stages; the record goes to the
    bucket of match reports, whose counter goes from 0 to 1 *)
Example scenario_a_succeeds :
  let out := run report (Some "item_1") None (start scenario_a one_second) in
  exists cls md hl,
    out.1 = inr (Success "item_1" cls md hl
                   "outputs/match_reports/item_1_20240309_150405.json")
    /\ counter fresh_dirs "match_report" = Some 0
    /\ counter (w_dirs out.2) "match_report" = Some 1.
Proof. do 3 eexists. split; [vm_compute; reflexivity|]. vm_compute. auto. Qed.

(** scenario C: the classification reply lacks the key [confidence] *)
Example scenario_c_missing_confidence :
  (run report (Some "item_1") None
     (start [inr (json_text "{'content_type': 'other', 'reasoning': 'none'}")]
        one_second)).1
  = inr (Failed "item_1"
           ("Classification failed: Classification result missing required "
              +:+ "keys: ['confidence']. Available keys: ['content_type', "
              +:+ "'reasoning']")).
Proof. vm_compute. reflexivity. Qed.

(** the batch scenario: five items, the third fails classification *)
Example batch_of_five :
  let reply_ok := [inr classification_reply; inr metadata_reply; inr headlines_reply] in
  let replies := (reply_ok ++ reply_ok ++ [inr ""] ++ reply_ok ++ reply_ok)%list in
  let it i := {| item_content := report; item_input_id := Some i;
                 item_source := None |} in
  let out := run_batch [it "a"; it "b"; it "c"; it "d"; it "e"]
               (start replies []) in
  exists results,
    out.1 = inr results
    /\ status <$> results = ["success"; "success"; "failed"; "success"; "success"]
    /\ result_id <$> results = ["a"; "b"; "c"; "d"; "e"]
    /\ get_routing_stats (w_dirs out.2) =
         [("match_report", 4); ("transfer_news", 0); ("injury_update", 0);
          ("opinion_piece", 0); ("other", 0)].
Proof. eexists. split; [vm_compute; reflexivity|]. vm_compute. repeat split. Qed.

End Runs.

(** ** Fenced payloads *)

Module FenceFacts.
Import PyStr.

Abbreviation closing := (String nl fence).

Lemma app_cons c (a b : string) : String c a +:+ b = String c (a +:+ b).
Proof. reflexivity. Qed.

Lemma app_empty_l (a : string) : "" +:+ a = a.
Proof. reflexivity. Qed.

Lemma app_empty_r (a : string) : a +:+ "" = a.
Proof. induction a as [|c a IH]; [reflexivity|]. now rewrite app_cons, IH. Qed.

Lemma app_assoc' (a b c : string) : (a +:+ b) +:+ c = a +:+ (b +:+ c).
Proof.
  induction a as [|x a IH]; [reflexivity|]. now rewrite !app_cons, IH.
Qed.

Lemma all_space_app (a b : string) :
  all_space (a +:+ b) = all_space a && all_space b.
Proof.
  induction a as [|c a IH]; [reflexivity|].
  rewrite app_cons. simpl. now rewrite IH, andb_assoc.
Qed.

(** *** Trimming *)

Lemma rstrip_all_space w : all_space w = true -> rstrip w = "".
Proof.
  induction w as [|c w IH]; [reflexivity|]. simpl.
  intros [Hc Hw]%andb_true_iff. now rewrite (IH Hw), Hc.
Qed.

Lemma rstrip_app_space a w : all_space w = true -> rstrip (a +:+ w) = rstrip a.
Proof.
  intros Hw. induction a as [|c a IH].
  - now apply rstrip_all_space.
  - rewrite app_cons. simpl. now rewrite IH.
Qed.

Lemma strip_space_app w s : all_space w = true -> strip (w +:+ s) = strip s.
Proof.
  unfold strip. induction w as [|c w IH]; [reflexivity|].
  intros [Hc Hw]%andb_true_iff. rewrite app_cons. simpl.
  specialize (IH Hw). destruct (rstrip (w +:+ s)) as [|c' r] eqn:E.
  - rewrite Hc. now rewrite <- IH.
  - rewrite <- IH. simpl. now rewrite Hc.
Qed.

Lemma strip_between w1 s w2 :
  all_space w1 = true -> all_space w2 = true ->
  strip (w1 +:+ s +:+ w2) = strip s.
Proof.
  intros H1 H2. rewrite (strip_space_app _ _ H1).
  unfold strip. now rewrite (rstrip_app_space _ _ H2).
Qed.

Lemma lstrip_split s : exists w, all_space w = true /\ s = w +:+ lstrip s.
Proof.
  induction s as [|c s (w & Hw & Hs)]; [now exists ""|]. simpl.
  destruct (is_space c) eqn:Hc.
  - exists (String c w). simpl. rewrite Hc, Hw. split; [reflexivity|].
    now rewrite app_cons, <- Hs.
  - now exists "".
Qed.

Lemma rstrip_split s : exists w, all_space w = true /\ s = rstrip s +:+ w.
Proof.
  induction s as [|c s (w & Hw & Hs)]; [now exists ""|]. simpl.
  destruct (rstrip s) as [|c' r] eqn:E.
  - destruct (is_space c) eqn:Hc.
    + exists (String c w). simpl. rewrite Hc, Hw. split; [reflexivity|].
      change (String c s = String c w). f_equal. exact Hs.
    + exists w. split; [exact Hw|]. rewrite app_cons. f_equal. exact Hs.
  - exists w. split; [exact Hw|]. rewrite app_cons. f_equal. exact Hs.
Qed.

Lemma strip_split s :
  exists w1 w2, all_space w1 = true /\ all_space w2 = true
                /\ s = w1 +:+ strip s +:+ w2.
Proof.
  destruct (rstrip_split s) as (w2 & H2 & Hs).
  destruct (lstrip_split (rstrip s)) as (w1 & H1 & Hr).
  exists w1, w2. repeat split; try assumption.
  unfold strip. rewrite <- app_assoc', <- Hr. exact Hs.
Qed.

Lemma rstrip_cons_nonspace c s :
  is_space c = false -> rstrip (String c s) = String c (rstrip s).
Proof. intros Hc. simpl. rewrite Hc. now destruct (rstrip s). Qed.

(** *** The lines of a valid payload *)

Ltac ascii_cases :=
  repeat match goal with
         | |- context [Ascii.eqb ?a ?b] =>
             destruct (Ascii.eqb_spec a b); subst; try discriminate
         | H : context [Ascii.eqb ?a ?b] |- _ =>
             destruct (Ascii.eqb_spec a b); subst; try discriminate
         end.

Lemma backticks_quoted_tail b c s :
  backticks_quoted b (String c s) = true -> exists b', backticks_quoted b' s = true.
Proof.
  simpl. ascii_cases; eauto.
  intros [[_ _]%andb_true_iff H]%andb_true_iff. eauto.
Qed.

Lemma backticks_quoted_backtick b s :
  backticks_quoted b (String backtick s) = true ->
  b = true /\ quote_ahead s = true.
Proof.
  simpl. intros [[? ?]%andb_true_iff _]%andb_true_iff. auto.
Qed.

Lemma quote_ahead_backtick s : quote_ahead (String backtick s) = quote_ahead s.
Proof. reflexivity. Qed.

(** *** The pattern on a fenced payload *)

Lemma lazy_until_fence_cons c r :
  Re.lazy_until_fence (String c r) =
    if startswith closing (String c r) then Some ""
    else String c <$> Re.lazy_until_fence r.
Proof. reflexivity. Qed.

Lemma tail_match_cons c r :
  Re.tail_match (String c r) =
    match (if is_space c then Re.tail_match r else None) with
    | Some g => Some g
    | None => if Ascii.eqb c nl then Re.lazy_until_fence r else None
    end.
Proof. reflexivity. Qed.

Lemma findall_first_unfold s :
  Re.findall_first s =
    match Re.match_at s with
    | Some g => Some g
    | None => match s with
              | EmptyString => None
              | String _ s' => Re.findall_first s'
              end
    end.
Proof. destruct s; reflexivity. Qed.

(** the lazy group stops at the closing fence, not before *)
Lemma lazy_until_fence_payload p b :
  backticks_quoted b p = true -> Re.lazy_until_fence (p +:+ closing) = Some p.
Proof.
  revert b. induction p as [|c p IH]; intros b Hq; [reflexivity|].
  rewrite app_cons, lazy_until_fence_cons.
  assert (Hno : startswith closing (String c (p +:+ closing)) = false).
  { cbn [startswith]. destruct (Ascii.eqb_spec nl c) as [<-|]; [|reflexivity].
    simpl in Hq. destruct p as [|c' p]; [reflexivity|].
    rewrite app_cons. cbn [fence startswith].
    destruct (Ascii.eqb_spec "`" c') as [<-|]; [|reflexivity].
    simpl in Hq. discriminate. }
  rewrite Hno. destruct (backticks_quoted_tail _ _ _ Hq) as [b' Hq'].
  now rewrite (IH _ Hq').
Qed.

(** a double quote before the end of the line stops [\s*\n] *)
Lemma tail_match_quote_ahead r x :
  quote_ahead r = true -> Re.tail_match (r +:+ x) = None.
Proof.
  induction r as [|c r IH]; [discriminate|]. simpl quote_ahead.
  rewrite app_cons, tail_match_cons.
  destruct (Ascii.eqb_spec c nl) as [->|Hnl]; [discriminate|].
  destruct (Ascii.eqb_spec c "034") as [->|Hq]; [reflexivity|].
  intros H. rewrite (IH H). now destruct (is_space c).
Qed.

Lemma tail_match_closing : Re.tail_match closing = None.
Proof. reflexivity. Qed.

(** [\s*\n(.*?)\n```] on a payload and the closing fence: the group is
    the payload less leading white space *)
Lemma tail_match_payload p b g :
  backticks_quoted b p = true ->
  Re.tail_match (p +:+ closing) = Some g ->
  exists w, all_space w = true /\ p = w +:+ g.
Proof.
  revert b. induction p as [|c p IH]; intros b Hq; [discriminate|].
  rewrite app_cons, tail_match_cons.
  destruct (backticks_quoted_tail _ _ _ Hq) as [b' Hq'].
  destruct (is_space c) eqn:Hc.
  - destruct (Re.tail_match (p +:+ closing)) as [g'|] eqn:E.
    + intros [= <-]. destruct (IH _ Hq' eq_refl) as (w & Hw & ->).
      exists (String c w). simpl. now rewrite Hc, Hw.
    + destruct (Ascii.eqb c nl); [|discriminate].
      rewrite (lazy_until_fence_payload _ _ Hq'). intros [= <-].
      exists (String c ""). simpl. now rewrite Hc.
  - destruct (Ascii.eqb_spec c nl) as [->|]; [discriminate | discriminate].
Qed.

Lemma after_fence_payload p b g :
  backticks_quoted b p = true ->
  match Re.tail_match (p +:+ closing) with
  | Some g' => Some g'
  | None => Re.lazy_until_fence (p +:+ closing)
  end = Some g ->
  exists w, all_space w = true /\ p = w +:+ g.
Proof.
  intros Hq. destruct (Re.tail_match (p +:+ closing)) as [g'|] eqn:E.
  - intros [= <-]. eapply tail_match_payload; eauto.
  - rewrite (lazy_until_fence_payload _ _ Hq). intros [= <-]. now exists "".
Qed.

(** [\s*\n...] after the rest of the fence line *)
Lemma tail_match_tag x r :
  has_char nl x = false ->
  Re.tail_match (x +:+ String nl r) =
    if all_space x
    then match Re.tail_match r with
         | Some g => Some g
         | None => Re.lazy_until_fence r
         end
    else None.
Proof.
  induction x as [|c x IH]; [reflexivity|].
  cbn [has_char]. intros [Hc Hx]%orb_false_iff.
  rewrite app_cons, tail_match_cons, (IH Hx), Hc. cbn [all_space].
  destruct (is_space c); [|reflexivity]. cbn [andb].
  destruct (all_space x); [|reflexivity].
  destruct (Re.tail_match r); [reflexivity|].
  now destruct (Re.lazy_until_fence r).
Qed.

Lemma startswith_fence_payload p :
  startswith fence (p +:+ closing) = true -> exists r, p = fence +:+ r.
Proof.
  destruct p as [|c1 [|c2 [|c3 r]]]; rewrite ?app_cons, ?app_empty_l;
    cbn [startswith fence]; ascii_cases; intros H; try discriminate H.
  now exists r.
Qed.

Lemma startswith_json_payload r x :
  startswith "json" (r +:+ String nl x) = true -> exists r', r = "json" +:+ r'.
Proof.
  destruct r as [|c1 [|c2 [|c3 [|c4 r]]]]; rewrite ?app_cons, ?app_empty_l;
    cbn [startswith]; ascii_cases; intros H; try discriminate H.
  now exists r.
Qed.

(** no match starts inside a valid payload *)
Lemma match_at_payload p b :
  backticks_quoted b p = true -> Re.match_at (p +:+ closing) = None.
Proof.
  intros Hq. unfold Re.match_at.
  destruct (startswith fence (p +:+ closing)) eqn:E; [|reflexivity].
  destruct (startswith_fence_payload _ E) as [r ->].
  apply backticks_quoted_backtick in Hq as [_ Hq].
  rewrite !quote_ahead_backtick in Hq.
  change (drop 3 ((fence +:+ r) +:+ closing)) with (r +:+ closing).
  rewrite (tail_match_quote_ahead _ _ Hq).
  destruct (startswith "json" (r +:+ closing)) eqn:Ej; [|reflexivity].
  destruct (startswith_json_payload _ _ Ej) as [r' ->].
  change (drop 4 (("json" +:+ r') +:+ closing)) with (r' +:+ closing).
  change (quote_ahead ("json" +:+ r')) with (quote_ahead r') in Hq.
  now rewrite (tail_match_quote_ahead _ _ Hq).
Qed.

Lemma findall_first_payload p b :
  backticks_quoted b p = true -> Re.findall_first (p +:+ closing) = None.
Proof.
  revert b. induction p as [|c p IH]; intros b Hq; [reflexivity|].
  rewrite findall_first_unfold, (match_at_payload _ _ Hq), app_cons.
  destruct (backticks_quoted_tail _ _ _ Hq) as [b' Hq']. eauto.
Qed.

Lemma match_at_no_backtick c s : c <> backtick -> Re.match_at (String c s) = None.
Proof.
  intros Hc. unfold Re.match_at. cbn [fence startswith].
  destruct (Ascii.eqb_spec "`" c) as [<-|]; [now destruct Hc | reflexivity].
Qed.

Lemma nl_not_backtick : nl <> backtick.
Proof. discriminate. Qed.

Lemma findall_first_tag t p b :
  has_char backtick t = false ->
  backticks_quoted b p = true ->
  Re.findall_first (t +:+ String nl (p +:+ closing)) = None.
Proof.
  intros Ht Hq. induction t as [|c t IH].
  - rewrite app_empty_l, findall_first_unfold.
    rewrite (match_at_no_backtick _ _ nl_not_backtick).
    eapply findall_first_payload; eauto.
  - cbn [has_char] in Ht. apply orb_false_iff in Ht as [Hc Ht].
    rewrite app_cons, findall_first_unfold, match_at_no_backtick; [auto|].
    intros ->. discriminate.
Qed.

(** the head of a line that holds no backtick, or of the next line *)
Lemma head_not_backtick t r :
  has_char backtick t = false ->
  exists c s, t +:+ String nl r = String c s /\ c <> backtick.
Proof.
  destruct t as [|c t]; cbn [has_char].
  - intros _. exists nl, r. split; [reflexivity | discriminate].
  - intros [Hc _]%orb_false_iff. exists c, (t +:+ String nl r).
    split; [reflexivity|]. intros ->. discriminate.
Qed.

(** on a fenced valid payload the first match, if there is one, starts at
    the opening fence, and its group is the payload less leading white
    space *)
Lemma findall_first_fenced tag p g :
  is_tag tag = true ->
  backticks_quoted false p = true ->
  Re.findall_first (fenced tag p) = Some g ->
  exists w, all_space w = true /\ p = w +:+ g.
Proof.
  unfold is_tag. intros [Hnl Hbt]%andb_true_iff Hq.
  apply negb_true_iff in Hnl, Hbt. unfold fenced.
  set (rest := p +:+ closing).
  rewrite findall_first_unfold.
  destruct (Re.match_at (fence +:+ tag +:+ String nl rest)) as [g'|] eqn:E.
  - intros [= <-]. unfold Re.match_at in E.
    change (startswith fence (fence +:+ tag +:+ String nl rest)) with true in E.
    change (drop 3 (fence +:+ tag +:+ String nl rest))
      with (tag +:+ String nl rest) in E.
    cbv iota in E.
    assert (Htag : forall x, has_char nl x = false ->
                     Re.tail_match (x +:+ String nl rest) = Some g' ->
                     exists w, all_space w = true /\ p = w +:+ g').
    { intros x Hx. rewrite (tail_match_tag _ _ Hx).
      destruct (all_space x); [|discriminate].
      apply (after_fence_payload _ _ _ Hq). }
    destruct (startswith "json" (tag +:+ String nl rest)) eqn:Ej.
    + destruct (startswith_json_payload _ _ Ej) as [tag' ->].
      change (drop 4 (("json" +:+ tag') +:+ String nl rest))
        with (tag' +:+ String nl rest) in E.
      destruct (Re.tail_match (tag' +:+ String nl rest)) as [g''|] eqn:E'.
      * injection E as ->. eapply (Htag tag'); [exact Hnl | exact E'].
      * eapply (Htag ("json" +:+ tag')); [exact Hnl | exact E].
    + eapply (Htag tag); [exact Hnl | exact E].
  - destruct (head_not_backtick tag rest Hbt) as (c & s & Hcs & Hc).
    change (fence +:+ tag +:+ String nl rest)
      with (String backtick (String backtick (String backtick
              (tag +:+ String nl rest)))).
    cbv beta iota. rewrite findall_first_unfold.
    assert (H2 : Re.match_at (String backtick (String backtick
                                (tag +:+ String nl rest))) = None).
    { rewrite Hcs. unfold Re.match_at. cbn [fence startswith].
      destruct (Ascii.eqb_spec "`" c) as [<-|]; [now destruct Hc|].
      now rewrite !andb_false_r. }
    rewrite H2, findall_first_unfold.
    assert (H1 : Re.match_at (String backtick (tag +:+ String nl rest)) = None).
    { rewrite Hcs. unfold Re.match_at. cbn [fence startswith].
      destruct (Ascii.eqb_spec "`" c) as [<-|]; [now destruct Hc|].
      now rewrite !andb_false_r. }
    rewrite H1. subst rest. rewrite (findall_first_tag _ _ _ Hbt Hq). discriminate.
Qed.

(** *** The lines of a fenced payload *)

Lemma split_nl_nonempty s : exists l ls, split_nl s = l :: ls.
Proof.
  induction s as [|c s (l & ls & IH)]; [now exists "", []|].
  cbn [split_nl]. rewrite IH. destruct (Ascii.eqb c nl); eauto.
Qed.

Lemma split_nl_app a b :
  split_nl (a +:+ String nl b) = (split_nl a ++ split_nl b)%list.
Proof.
  induction a as [|c a IH]; [reflexivity|].
  rewrite app_cons. cbn [split_nl]. rewrite IH.
  destruct (Ascii.eqb c nl); [reflexivity|].
  now destruct (split_nl_nonempty a) as (l & ls & ->).
Qed.

Lemma split_nl_one_line t : has_char nl t = false -> split_nl t = [t].
Proof.
  induction t as [|c t IH]; [reflexivity|]. cbn [has_char split_nl].
  intros [Hc Ht]%orb_false_iff. now rewrite Hc, (IH Ht).
Qed.

Lemma join_split_nl s : join_nl (split_nl s) = s.
Proof.
  induction s as [|c s IH]; [reflexivity|]. cbn [split_nl].
  destruct (split_nl_nonempty s) as (l & ls & E). rewrite E in *.
  destruct (Ascii.eqb_spec c nl) as [->|_].
  - change (join_nl ("" :: l :: ls)) with (String nl (join_nl (l :: ls))).
    now rewrite IH.
  - destruct ls as [|l2 ls].
    + cbn [join_nl] in *. now rewrite IH.
    + change (join_nl (String c l :: l2 :: ls))
        with (String c (join_nl (l :: l2 :: ls))). now rewrite IH.
Qed.

(** does the line start, after white space, with a backtick? *)
Abbreviation leads_with_backtick l := (startswith "`" (lstrip l)).

Lemma lstrip_app x w : lstrip x <> "" -> lstrip (x +:+ w) = lstrip x +:+ w.
Proof.
  induction x as [|c x IH]; [done|]. rewrite app_cons. cbn [lstrip].
  destruct (is_space c); [exact IH | reflexivity].
Qed.

Lemma keep_line_no_backtick l : leads_with_backtick l = false -> keep_line l = true.
Proof.
  intros Hl. unfold keep_line, strip. apply negb_true_iff.
  destruct (startswith fence (lstrip (rstrip l))) eqn:E; [|reflexivity].
  destruct (rstrip_split l) as (w & _ & Hw).
  assert (Hne : lstrip (rstrip l) <> "") by (intros H; now rewrite H in E).
  rewrite Hw, (lstrip_app _ _ Hne) in Hl.
  destruct (lstrip (rstrip l)) as [|c r]; [done|].
  rewrite app_cons in Hl. cbn [startswith fence] in *.
  destruct (Ascii.eqb "`" c); [discriminate Hl | discriminate E].
Qed.

Lemma payload_lines b p :
  backticks_quoted b p = true ->
  match split_nl p with
  | l :: ls => (b = false -> leads_with_backtick l = false)
               /\ Forall (fun l => leads_with_backtick l = false) ls
  | [] => True
  end.
Proof.
  revert b. induction p as [|c p IH]; intros b Hq.
  - cbn. auto.
  - cbn [split_nl]. cbn [backticks_quoted] in Hq.
    destruct (split_nl_nonempty p) as (l & ls & E). rewrite E.
    destruct (Ascii.eqb_spec c nl) as [->|Hnl].
    + specialize (IH _ Hq). rewrite E in IH. destruct IH as [Hl Hls].
      split; [reflexivity|]. constructor; auto.
    + destruct (Ascii.eqb_spec c "034") as [->|Hquote].
      * specialize (IH _ Hq). rewrite E in IH. split; [reflexivity | apply IH].
      * destruct (Ascii.eqb_spec c backtick) as [->|Hbt].
        -- apply andb_true_iff in Hq as [[-> _]%andb_true_iff Hq].
           specialize (IH _ Hq). rewrite E in IH. split; [discriminate | apply IH].
        -- specialize (IH _ Hq). rewrite E in IH. destruct IH as [Hl Hls].
           split; [|exact Hls]. intros ->. cbn [lstrip].
           destruct (is_space c); [auto|]. cbn [startswith].
           destruct (Ascii.eqb_spec "`" c) as [<-|]; [now destruct Hbt | reflexivity].
Qed.

Lemma filter_payload_lines p :
  backticks_quoted false p = true ->
  List.filter keep_line (split_nl p) = split_nl p.
Proof.
  intros Hq. pose proof (payload_lines _ _ Hq) as H.
  destruct (split_nl p) as [|l ls]; [reflexivity|]. destruct H as [Hl Hls].
  assert (Hall : Forall (fun l => keep_line l = true) (l :: ls)).
  { constructor; [apply keep_line_no_backtick; auto|].
    eapply Forall_impl; [exact Hls|]. apply keep_line_no_backtick. }
  clear -Hall. induction Hall as [|x xs Hx _ IH]; [reflexivity|].
  cbn [List.filter]. now rewrite Hx, IH.
Qed.

Lemma has_char_app c a b : has_char c (a +:+ b) = has_char c a || has_char c b.
Proof.
  induction a as [|x a IH]; [reflexivity|].
  rewrite app_cons. cbn [has_char]. now rewrite IH, orb_assoc.
Qed.

Lemma keep_line_fence tag : keep_line (fence +:+ tag) = false.
Proof.
  unfold keep_line, strip.
  change (fence +:+ tag)
    with (String backtick (String backtick (String backtick tag))).
  now rewrite !rstrip_cons_nonspace.
Qed.

(** dropping the fence lines of a fenced valid payload leaves the payload *)
Lemma cleaned_lines_fenced tag p :
  is_tag tag = true ->
  backticks_quoted false p = true ->
  join_nl (List.filter keep_line (split_nl (fenced tag p))) = p.
Proof.
  unfold is_tag. intros [Hnl _]%andb_true_iff Hq. apply negb_true_iff in Hnl.
  unfold fenced. rewrite <- app_assoc', !split_nl_app.
  rewrite (split_nl_one_line (fence +:+ tag))
    by (now rewrite has_char_app, Hnl).
  rewrite !List.filter_app. cbn [List.filter].
  rewrite keep_line_fence, (filter_payload_lines _ Hq).
  change (List.filter keep_line (split_nl fence)) with (@nil string).
  now rewrite app_nil_r, app_nil_l, join_split_nl.
Qed.

(** *** The fenced text itself *)

Lemma rstrip_app_end a b : rstrip b = b -> b <> "" -> rstrip (a +:+ b) = a +:+ b.
Proof.
  intros Hb Hne. induction a as [|c a IH]; [exact Hb|].
  rewrite app_cons. cbn [rstrip]. rewrite IH.
  destruct (a +:+ b) eqn:E; [|reflexivity].
  destruct a; [now destruct Hne | discriminate E].
Qed.

Lemma strip_fenced tag p : strip (fenced tag p) = fenced tag p.
Proof.
  unfold strip, fenced.
  replace (fence +:+ tag +:+ String nl (p +:+ closing))
    with ((fence +:+ tag +:+ String nl (p +:+ String nl "")) +:+ fence).
  - now rewrite rstrip_app_end.
  - rewrite !app_assoc', !app_cons. do 2 f_equal.
    now rewrite app_assoc', app_cons.
Qed.

Lemma fenced_not_quoted b tag p : backticks_quoted b (fenced tag p) = true -> b = true.
Proof. cbn. now intros [[-> _]%andb_true_iff _]%andb_true_iff. Qed.

End FenceFacts.

Section FencedExtract.
Import PyStr FenceFacts.

Variable json_loads : string -> string + json.

(** Three facts of [json.loads].  It rejects the empty text.  White space
    around a text it accepts is immaterial.  And since JSON has no backtick
    token and a string literal holds no raw newline, each backtick of a text
    it accepts stands between two double quotes of its own line. *)
Hypothesis loads_empty : Utils.try_loads json_loads "" = None.
Hypothesis loads_trim :
  forall w1 s w2 v,
    all_space w1 = true -> all_space w2 = true ->
    json_loads (w1 +:+ s +:+ w2) = inr v -> json_loads s = inr v.
Hypothesis loads_backticks :
  forall s v, json_loads s = inr v -> backticks_quoted false s = true.

Lemma loads_strip s v : json_loads s = inr v -> json_loads (strip s) = inr v.
Proof.
  intros Hv. destruct (strip_split s) as (w1 & w2 & H1 & H2 & Hs).
  rewrite Hs in Hv. exact (loads_trim w1 (strip s) w2 v H1 H2 Hv).
Qed.

Lemma loads_drop_space w g v :
  all_space w = true -> json_loads (w +:+ g) = inr v -> json_loads g = inr v.
Proof.
  intros Hw Hv. apply (loads_trim w g "" v Hw eq_refl).
  now rewrite app_empty_r.
Qed.

Lemma strategy_fences_fenced tag payload v :
  json_loads payload = inr v ->
  is_tag tag = true ->
  Utils.strategy_fences json_loads (fenced tag payload) = Some v.
Proof.
  intros Hv Htag. pose proof (loads_backticks _ _ Hv) as Hq.
  unfold Utils.strategy_fences.
  change (contains fence (fenced tag payload)) with true. cbv iota.
  assert (Hfallback :
            Utils.try_loads json_loads
              (join_nl (List.filter
                          (fun line => negb (startswith fence (strip line)))
                          (split_nl (fenced tag payload)))) = Some v).
  { change (fun line => negb (startswith fence (strip line))) with keep_line.
    rewrite (cleaned_lines_fenced _ _ Htag Hq).
    unfold Utils.try_loads. now rewrite Hv. }
  destruct (Re.findall_first (fenced tag payload)) as [g|] eqn:E.
  - destruct (findall_first_fenced _ _ _ Htag Hq E) as (w & Hw & Hp).
    rewrite Hp in Hv. apply (loads_drop_space _ _ _ Hw) in Hv.
    unfold Utils.try_loads at 1. now rewrite Hv.
  - exact Hfallback.
Qed.

(** C4: a valid JSON payload in a fenced block, with any tag or none on the
    opening fence, is extracted to the value of the payload, as the payload
    alone is. *)
Theorem extract_fenced_payload tag payload context context' v :
  json_loads payload = inr v ->
  is_tag tag = true ->
  Utils.extract_json_from_response json_loads (fenced tag payload) context = inr v
  /\ Utils.extract_json_from_response json_loads payload context' = inr v.
Proof.
  intros Hv Htag. split.
  - unfold Utils.extract_json_from_response.
    rewrite strip_fenced.
    change (String.eqb (fenced tag payload) "") with false. cbn [orb].
    assert (Hnot : Utils.try_loads json_loads (fenced tag payload) = None).
    { unfold Utils.try_loads.
      destruct (json_loads (fenced tag payload)) as [e|x] eqn:E; [reflexivity|].
      apply loads_backticks, fenced_not_quoted in E. discriminate. }
    now rewrite Hnot, (strategy_fences_fenced _ _ _ Hv Htag).
  - apply loads_strip in Hv. unfold Utils.extract_json_from_response.
    assert (Hne : strip payload <> "").
    { intros E. rewrite E in Hv. unfold Utils.try_loads in loads_empty.
      rewrite Hv in loads_empty. discriminate. }
    assert (Hne' : payload <> "") by (intros ->; now apply Hne).
    apply String.eqb_neq in Hne, Hne'. rewrite Hne, Hne'. cbn [orb].
    unfold Utils.try_loads. now rewrite Hv.
Qed.

End FencedExtract.

(** ** The decoder of the examples satisfies the three facts *)

Module FragmentFacts.
Import PyStr FenceFacts.

Lemma in_fragment_app a b :
  Fragment.in_fragment (a +:+ b) = Fragment.in_fragment a && Fragment.in_fragment b.
Proof.
  induction a as [|c a IH]; [reflexivity|].
  rewrite app_cons. cbn [Fragment.in_fragment]. now rewrite IH, andb_assoc.
Qed.

Lemma in_fragment_quoted b s :
  Fragment.in_fragment s = true -> backticks_quoted b s = true.
Proof.
  revert b. induction s as [|c s IH]; intros b; [reflexivity|].
  cbn [Fragment.in_fragment backticks_quoted].
  intros [Hc Hs]%andb_true_iff. unfold Fragment.in_alphabet in Hc.
  apply andb_true_iff in Hc as [_ Hc]. apply negb_true_iff in Hc.
  rewrite Hc. destruct (Ascii.eqb c nl); [auto|].
  destruct (Ascii.eqb c "034"); auto.
Qed.

Lemma loads_in_fragment s v :
  Fragment.loads s = inr v -> Fragment.in_fragment s = true.
Proof. unfold Fragment.loads. now destruct (Fragment.in_fragment s). Qed.

Lemma fragment_loads_backticks s v :
  Fragment.loads s = inr v -> backticks_quoted false s = true.
Proof. intros H. eapply in_fragment_quoted, loads_in_fragment, H. Qed.

Lemma fragment_loads_trim w1 s w2 v :
  all_space w1 = true -> all_space w2 = true ->
  Fragment.loads (w1 +:+ s +:+ w2) = inr v -> Fragment.loads s = inr v.
Proof.
  intros H1 H2 Hv. pose proof (loads_in_fragment _ _ Hv) as Hf.
  rewrite !in_fragment_app in Hf.
  apply andb_true_iff in Hf as [_ [Hs _]%andb_true_iff].
  unfold Fragment.loads in *. rewrite !in_fragment_app in Hv.
  rewrite (strip_between _ _ _ H1 H2) in Hv. rewrite Hs.
  destruct (Fragment.in_fragment w1 && (Fragment.in_fragment s
                                        && Fragment.in_fragment w2));
    [exact Hv | discriminate].
Qed.

End FragmentFacts.

Lemma extract_fenced_payload_witness :
  Utils.extract_json_from_response Fragment.loads
    (fenced "json" (Examples.json_text "{'neutral': 'United beat Liverpool'}"))
    "API response"
  = inr (JObj [("neutral", JStr "United beat Liverpool")])
  /\ Utils.extract_json_from_response Fragment.loads
       (Examples.json_text "{'neutral': 'United beat Liverpool'}") "API response"
     = inr (JObj [("neutral", JStr "United beat Liverpool")]).
Proof.
  apply (extract_fenced_payload Fragment.loads eq_refl
           FragmentFacts.fragment_loads_trim FragmentFacts.fragment_loads_backticks).
  - reflexivity.
  - reflexivity.
Defined.

(** * Further properties *)

(** ** [extract_json_from_response]: errors and edge cases *)

Section ExtractEdges.
Import PyStr PyStrFacts FenceFacts.

Variable json_loads : string -> string + json.

Abbreviation extract_json := (Utils.extract_json_from_response json_loads).

Lemma strip_all_space s : all_space s = true -> strip s = "".
Proof. intros H. unfold strip. now rewrite (rstrip_all_space _ H). Qed.

Lemma lstrip_empty s : lstrip s = "" -> all_space s = true.
Proof.
  induction s as [|c s IH]; [reflexivity|]. cbn [lstrip all_space].
  destruct (is_space c); [exact IH | discriminate].
Qed.

Lemma rstrip_empty s : rstrip s = "" -> all_space s = true.
Proof.
  induction s as [|c s IH]; [reflexivity|]. cbn [rstrip all_space].
  destruct (rstrip s) as [|c' r]; [|discriminate].
  destruct (is_space c); [intros _; now apply IH | discriminate].
Qed.

Lemma strip_empty s : strip s = "" -> all_space s = true.
Proof.
  intros H. destruct (strip_split s) as (w1 & w2 & H1 & H2 & Hs).
  rewrite H in Hs. rewrite Hs, app_empty_l, all_space_app. now rewrite H1, H2.
Qed.

(** X1: a text is rejected as an empty response exactly when it is empty or
    holds white space only. *)
Theorem extract_empty_response (text context : string) :
  extract_json text context
  = inl (ValueError ("Empty response received for " +:+ context))
  <-> all_space text = true.
Proof.
  unfold Utils.extract_json_from_response. split.
  - destruct (String.eqb_spec text "") as [->|Hne]; [reflexivity|].
    destruct (String.eqb_spec (strip text) "") as [He|Hne'];
      [intros _; now apply strip_empty|].
    cbn [orb]. unfold Utils.strategy_brackets.
    repeat match goal with
           | |- context [if ?b then _ else _] => destruct b
           | |- context [match ?x with _ => _ end] => destruct x
           end; intros H; discriminate H.
  - intros H. rewrite (strip_all_space _ H). cbn. now rewrite orb_true_r.
Qed.


(** X3: the context changes the wording of an error and nothing else: a
    text is extracted under one context exactly when it is under another,
    and to the same value. *)
Theorem extract_value_ignores_context (text c1 c2 : string) (v : json) :
  extract_json text c1 = inr v <-> extract_json text c2 = inr v.
Proof. split; apply extract_ok_any_context. Qed.

(** *** The bracket scan *)

Lemma find_from_range c s i :
  find_from c s i = (-1)%Z \/ (i <= find_from c s i)%Z.
Proof.
  revert i. induction s as [|a s IH]; intros i; cbn [find_from]; [now left|].
  destruct (Ascii.eqb a c); [right; lia|].
  destruct (IH (i + 1)%Z); [now left | right; lia].
Qed.

Lemma find_from_app c a b i :
  has_char c a = false ->
  find_from c (a +:+ b) i = find_from c b (i + Z.of_nat (String.length a)).
Proof.
  revert i. induction a as [|x a IH]; intros i.
  - intros _. rewrite app_empty_l. f_equal. cbn. lia.
  - cbn [has_char]. intros [Hx Ha]%orb_false_iff.
    rewrite app_cons. cbn [find_from String.length]. rewrite Hx, (IH _ Ha).
    f_equal. lia.
Qed.

Lemma find_from_present c s i :
  (0 <= i)%Z -> has_char c s = true -> (0 <= find_from c s i)%Z.
Proof.
  revert i. induction s as [|a s IH]; intros i Hi; cbn [has_char find_from];
    [discriminate|].
  destruct (Ascii.eqb a c); [intros _; lia|]. cbn [orb]. intros H.
  apply IH; [lia | exact H].
Qed.

Lemma rfind_from_app c a b i last :
  rfind_from c (a +:+ b) i last
  = rfind_from c b (i + Z.of_nat (String.length a)) (rfind_from c a i last).
Proof.
  revert i last. induction a as [|x a IH]; intros i last.
  - rewrite app_empty_l. cbn. f_equal. lia.
  - rewrite app_cons. cbn [rfind_from String.length]. rewrite IH. f_equal. lia.
Qed.

Lemma rfind_from_absent c s i last :
  has_char c s = false -> rfind_from c s i last = last.
Proof.
  revert i last. induction s as [|a s IH]; intros i last; [reflexivity|].
  cbn [has_char rfind_from]. intros [-> Hs]%orb_false_iff. now apply IH.
Qed.

Lemma has_char_strip_kept c s :
  is_space c = false -> has_char c (strip s) = has_char c s.
Proof.
  intros Hc. destruct (strip_split s) as (w1 & w2 & H1 & H2 & Hs).
  assert (Hw : forall w, all_space w = true -> has_char c w = false).
  { induction w as [|x w IH]; [reflexivity|]. cbn [all_space has_char].
    intros [Hx Hw]%andb_true_iff. rewrite (IH Hw), orb_false_r.
    destruct (Ascii.eqb_spec x c) as [->|]; [congruence | reflexivity]. }
  rewrite Hs at 2. rewrite !has_char_app, (Hw _ H1), (Hw _ H2).
  now rewrite orb_false_r.
Qed.

(** X5: a text with an opening brace but no closing brace and no bracket,
    which the first two strategies do not decode, is rejected as malformed
    JSON. *)
Theorem extract_unclosed_brace (text context : string) :
  has_char "{" text = true ->
  has_char "[" text = false ->
  has_char "}" text = false ->
  Utils.try_loads json_loads (strip text) = None ->
  Utils.strategy_fences json_loads (strip text) = None ->
  extract_json text context
  = inl (ValueError ("Malformed JSON in " +:+ context +:+ ". Response: "
                       +:+ take 200 text +:+ "...")).
Proof.
  intros Hopen Hbracket Hclose Hdirect Hfences.
  unfold Utils.extract_json_from_response.
  assert (Hopen' : has_char "{" (strip text) = true)
    by now rewrite has_char_strip_kept.
  destruct (String.eqb_spec text "") as [->|_]; [discriminate Hopen|].
  destruct (String.eqb_spec (strip text) "") as [E|_];
    [rewrite E in Hopen'; discriminate Hopen'|].
  cbn [orb]. rewrite Hdirect, Hfences. unfold Utils.strategy_brackets.
  rewrite (find_absent _ _ (has_char_strip _ _ Hbracket)).
  pose proof (find_from_present "{" (strip text) 0 ltac:(lia) Hopen') as Hpos.
  fold (find "{" (strip text)) in Hpos.
  destruct (Z.eqb_spec (find "{" (strip text)) (-1)) as [E|_]; [lia|].
  cbn [andb]. change ((-1 =? -1)%Z) with true. cbv iota.
  unfold rfind. rewrite (rfind_from_absent _ _ _ _ (has_char_strip _ _ Hclose)).
  reflexivity.
Qed.

Lemma lstrip_app_nonspace a c b :
  is_space c = false -> lstrip (a +:+ String c b) = lstrip a +:+ String c b.
Proof.
  intros Hc. induction a as [|x a IH].
  - rewrite !app_empty_l. cbn [lstrip]. now rewrite Hc.
  - rewrite app_cons. cbn [lstrip]. destruct (is_space x); [exact IH|].
    now rewrite app_cons.
Qed.

Lemma rstrip_app a b :
  rstrip (a +:+ b) = if String.eqb (rstrip b) "" then rstrip a else a +:+ rstrip b.
Proof.
  induction a as [|x a IH].
  - rewrite !app_empty_l. now destruct (String.eqb_spec (rstrip b) "") as [->|].
  - rewrite app_cons. cbn [rstrip]. rewrite IH.
    destruct (String.eqb_spec (rstrip b) "") as [E|E]; [reflexivity|].
    rewrite app_cons. destruct (a +:+ rstrip b) eqn:Ea; [|reflexivity].
    destruct a; [now destruct E | discriminate Ea].
Qed.

Lemma rstrip_braced body : rstrip (braced body) = braced body.
Proof.
  unfold braced. change (String "{" (body +:+ "}")) with (String "{" body +:+ "}").
  now rewrite rstrip_app_end.
Qed.

Lemma strip_around_braced pre body post :
  strip (pre +:+ braced body +:+ post)
  = lstrip pre +:+ braced body +:+ rstrip post.
Proof.
  unfold strip. rewrite <- app_assoc', rstrip_app.
  assert (H : (if String.eqb (rstrip post) ""
               then rstrip (pre +:+ braced body)
               else (pre +:+ braced body) +:+ rstrip post)
              = pre +:+ braced body +:+ rstrip post).
  { destruct (String.eqb_spec (rstrip post) "") as [->|_].
    - rewrite app_empty_r. apply rstrip_app_end; [apply rstrip_braced | discriminate].
    - apply app_assoc'. }
  rewrite H. unfold braced. rewrite !app_cons.
  now rewrite lstrip_app_nonspace.
Qed.

Lemma take_append a b : take (String.length a) (a +:+ b) = a.
Proof.
  induction a as [|x a IH]; [now destruct b|].
  rewrite app_cons. cbn [String.length take]. now rewrite IH.
Qed.

Lemma length_braced body : String.length (braced body) = S (S (String.length body)).
Proof.
  unfold braced. cbn [String.length]. rewrite RouterFacts.length_append.
  cbn [String.length]. lia.
Qed.

(** X4: an object text with prose before and after it is found by the
    bracket scan: when the prose before has no opening delimiter, the prose
    after no closing brace, and the first two strategies decode nothing,
    the extraction is the value of the object text. *)
Theorem extract_object_in_prose (pre body post context : string) (v : json) :
  has_char "{" pre = false ->
  has_char "[" pre = false ->
  has_char "}" post = false ->
  json_loads (braced body) = inr v ->
  Utils.try_loads json_loads (strip (pre +:+ braced body +:+ post)) = None ->
  Utils.strategy_fences json_loads (strip (pre +:+ braced body +:+ post)) = None ->
  extract_json (pre +:+ braced body +:+ post) context = inr v.
Proof.
  intros Hbrace Hbracket Hclose Hv Hdirect Hfences.
  unfold Utils.extract_json_from_response.
  rewrite Hdirect, Hfences. rewrite strip_around_braced in *.
  set (pre' := lstrip pre). set (post' := rstrip post).
  assert (Hb' : has_char "{" pre' = false) by now apply has_char_lstrip.
  assert (Hk' : has_char "[" pre' = false) by now apply has_char_lstrip.
  assert (Hc' : has_char "}" post' = false) by now apply has_char_rstrip.
  destruct (String.eqb_spec (pre +:+ braced body +:+ post) "") as [E|_].
  { destruct pre; discriminate E. }
  destruct (String.eqb_spec (pre' +:+ braced body +:+ post') "") as [E|_].
  { destruct pre'; discriminate E. }
  cbn [orb]. unfold Utils.strategy_brackets. cbv zeta.
  set (n := Z.of_nat (String.length pre')).
  assert (Hfb : find "{" (pre' +:+ braced body +:+ post') = n).
  { unfold find. rewrite (find_from_app _ _ _ _ Hb'). reflexivity. }
  assert (Hfk : find "[" (pre' +:+ braced body +:+ post') = (-1)%Z
                \/ (n < find "[" (pre' +:+ braced body +:+ post'))%Z).
  { unfold find. rewrite (find_from_app _ _ _ _ Hk').
    unfold braced. rewrite app_cons. cbn [find_from].
    change (Ascii.eqb "{" "[") with false. cbv iota.
    match goal with
    | |- context [find_from ?c ?x ?i] =>
        destruct (find_from_range c x i) as [->|Hle]; [now left | right; lia]
    end. }
  assert (Hrf : rfind "}" (pre' +:+ braced body +:+ post')
                = (n + 1 + Z.of_nat (String.length body))%Z).
  { unfold rfind, braced.
    replace (pre' +:+ String "{" (body +:+ "}") +:+ post')
      with ((pre' +:+ String "{" body) +:+ String "}" post').
    - rewrite rfind_from_app. cbn [rfind_from].
      change (Ascii.eqb "}" "}") with true. cbv iota.
      rewrite (rfind_from_absent _ _ _ _ Hc').
      rewrite RouterFacts.length_append. cbn [String.length]. lia.
    - rewrite app_assoc', !app_cons. do 2 f_equal.
      now rewrite app_assoc'. }
  rewrite Hfb.
  assert (Hn : (0 <= n)%Z) by (unfold n; lia).
  destruct (Z.eqb_spec n (-1)) as [E|_]; [lia|]. cbn [andb].
  assert (Hsel : (if (find "[" (pre' +:+ braced body +:+ post') =? -1)%Z
                  then (n, "}"%char)
                  else (Z.min n (find "[" (pre' +:+ braced body +:+ post')),
                        if (Z.min n (find "[" (pre' +:+ braced body +:+ post'))
                            =? n)%Z
                        then "}"%char else "]"%char))
                 = (n, "}"%char)).
  { destruct Hfk as [->|Hlt]; [reflexivity|].
    destruct (Z.eqb_spec (find "[" (pre' +:+ braced body +:+ post')) (-1));
      [reflexivity|].
    rewrite Z.min_l by lia. now rewrite Z.eqb_refl. }
  rewrite Hsel. cbv beta iota zeta. rewrite Hrf.
  destruct (Z.eqb_spec (n + 1 + Z.of_nat (String.length body)) (-1)) as [E|_];
    [lia|].
  destruct (Z.ltb_spec (n + 1 + Z.of_nat (String.length body)) n) as [E|_];
    [lia|].
  cbn [orb].
  assert (Hslice : slice (pre' +:+ braced body +:+ post') n
                     (n + 1 + Z.of_nat (String.length body) + 1) = braced body).
  { unfold slice, n. rewrite Nat2Z.id, RouterFacts.drop_append.
    replace (Z.to_nat (Z.of_nat (String.length pre') + 1
                       + Z.of_nat (String.length body) + 1
                       - Z.of_nat (String.length pre')))
      with (String.length (braced body)) by (rewrite length_braced; lia).
    apply take_append. }
  now rewrite Hslice, Hv.
Qed.

End ExtractEdges.

(** ** [validate_dict_keys] followed by subscripts *)

Section ValidateThenRead.

Variable py_repr : string -> string.

Lemma validated_keys_present (data : json) (required : list string)
    (context : string) :
  Utils.validate_dict_keys py_repr data required context = inr tt ->
  (exists kvs, data = JObj kvs)
  /\ forall k, k ∈ required -> exists v, Py.subscript data k = inr v.
Proof.
  unfold Utils.validate_dict_keys. destruct data; try discriminate.
  destruct (Utils.missing_keys kvs required) as [|m ms] eqn:Hm; [|discriminate].
  intros _. split; [now exists kvs|]. intros k Hk. cbn [Py.subscript].
  destruct (Py.dict_get k kvs) as [v|] eqn:Hget; [eauto|].
  assert (Hin : k ∈ Utils.missing_keys kvs required).
  { apply (proj2 (missing_keys_spec py_repr kvs required k)). split; [exact Hk|].
    intros Hkeys%dict_has_keys. unfold Py.dict_has in Hkeys.
    rewrite Hget, bool_decide_eq_true in Hkeys. destruct Hkeys. discriminate. }
  rewrite Hm in Hin. inversion Hin.
Qed.

(** X7: after [validate_dict_keys] has returned, the value is a dict and
    reading any of the required keys from it raises no [KeyError]. *)
Theorem validate_then_subscript (data : json) (required : list string)
    (context : string) :
  Utils.validate_dict_keys py_repr data required context = inr tt ->
  (exists kvs, data = JObj kvs)
  /\ forall k, k ∈ required -> exists v, Py.subscript data k = inr v.
Proof. apply validated_keys_present. Qed.

End ValidateThenRead.

(** ** A fenced block within prose *)

Module FenceProse.
Import PyStr FenceFacts.

Lemma lazy_until_fence_none x :
  has_char backtick x = false -> Re.lazy_until_fence x = None.
Proof.
  induction x as [|c x IH]; [reflexivity|]. cbn [has_char].
  intros [Hc Hx]%orb_false_iff. rewrite lazy_until_fence_cons, (IH Hx).
  cbn [startswith]. destruct (Ascii.eqb nl c); [|reflexivity].
  destruct x as [|c' x]; [reflexivity|]. cbn [fence startswith has_char] in *.
  apply orb_false_iff in Hx as [Hc' _]. rewrite Ascii.eqb_sym in Hc'.
  unfold backtick in Hc'. now rewrite Hc'.
Qed.

Lemma lazy_after_fence x :
  has_char backtick x = false -> Re.lazy_until_fence (fence +:+ x) = None.
Proof.
  intros Hx. unfold fence. rewrite !app_cons, app_empty_l.
  rewrite !lazy_until_fence_cons. cbn [startswith].
  change (Ascii.eqb nl "`") with false. cbn [andb].
  now rewrite (lazy_until_fence_none _ Hx).
Qed.

Lemma lazy_until_fence_payload_then p b x :
  backticks_quoted b p = true ->
  Re.lazy_until_fence (p +:+ closing +:+ x) = Some p.
Proof.
  revert b. induction p as [|c p IH]; intros b Hq; [reflexivity|].
  rewrite app_cons, lazy_until_fence_cons.
  assert (Hno : startswith closing (String c (p +:+ closing +:+ x)) = false).
  { cbn [startswith]. destruct (Ascii.eqb_spec nl c) as [<-|]; [|reflexivity].
    simpl in Hq. destruct p as [|c' p]; [reflexivity|].
    rewrite app_cons. cbn [fence startswith].
    destruct (Ascii.eqb_spec "`" c') as [<-|]; [|reflexivity].
    simpl in Hq. discriminate. }
  rewrite Hno. destruct (backticks_quoted_tail _ _ _ Hq) as [b' Hq'].
  now rewrite (IH _ Hq').
Qed.

Lemma tail_match_payload_then p b x g :
  backticks_quoted b p = true ->
  has_char backtick x = false ->
  Re.tail_match (p +:+ closing +:+ x) = Some g ->
  exists w, all_space w = true /\ p = w +:+ g.
Proof.
  intros Hq Hx. revert b Hq. induction p as [|c p IH]; intros b Hq.
  - rewrite app_empty_l, app_cons, tail_match_cons.
    change (is_space nl) with true. cbv iota.
    assert (Hf : Re.tail_match (fence +:+ x) = None) by reflexivity.
    rewrite Hf. change (Ascii.eqb nl nl) with true. cbv iota.
    now rewrite (lazy_after_fence _ Hx).
  - rewrite app_cons, tail_match_cons.
    destruct (backticks_quoted_tail _ _ _ Hq) as [b' Hq'].
    destruct (is_space c) eqn:Hc.
    + destruct (Re.tail_match (p +:+ closing +:+ x)) as [g'|] eqn:E.
      * intros [= <-]. destruct (IH _ Hq' eq_refl) as (w & Hw & ->).
        exists (String c w). simpl. now rewrite Hc, Hw.
      * destruct (Ascii.eqb c nl); [|discriminate].
        rewrite (lazy_until_fence_payload_then _ _ _ Hq'). intros [= <-].
        exists (String c ""). simpl. now rewrite Hc.
    + destruct (Ascii.eqb_spec c nl) as [->|]; [discriminate | discriminate].
Qed.

(** the pattern anchored at an opening fence with no tag or the tag json *)
Lemma match_at_fenced_then tag p x :
  tag = "" \/ tag = "json" ->
  backticks_quoted false p = true ->
  has_char backtick x = false ->
  exists g w, Re.match_at (fenced tag p +:+ x) = Some g
              /\ all_space w = true /\ p = w +:+ g.
Proof.
  intros Htag Hq Hx.
  set (r := p +:+ closing +:+ x).
  assert (Hr : exists g w,
             match Re.tail_match r with
             | Some g' => Some g'
             | None => Re.lazy_until_fence r
             end = Some g /\ all_space w = true /\ p = w +:+ g).
  { destruct (Re.tail_match r) as [g|] eqn:E.
    - destruct (tail_match_payload_then _ _ _ _ Hq Hx E) as (w & Hw & Hp). eauto.
    - subst r. rewrite (lazy_until_fence_payload_then _ _ _ Hq).
      exists p, "". now rewrite app_empty_l. }
  destruct Hr as (g & w & Hg & Hw & Hp). exists g, w. split; [|auto].
  assert (Hnl : Re.tail_match (String nl r) = Some g).
  { rewrite <- Hg. apply (tail_match_tag "" r eq_refl). }
  assert (Hshape : forall t, fenced t p +:+ x = fence +:+ t +:+ String nl r).
  { intros t. unfold fenced, r. rewrite !app_assoc'. do 2 f_equal.
    rewrite app_cons. f_equal. rewrite app_assoc'. now rewrite app_cons. }
  rewrite Hshape. destruct Htag as [-> | ->]; unfold Re.match_at.
  - change (startswith fence (fence +:+ "" +:+ String nl r)) with true.
    change (drop 3 (fence +:+ "" +:+ String nl r)) with (String nl r).
    cbv iota. change (startswith "json" (String nl r)) with false. cbv iota.
    exact Hnl.
  - change (startswith fence (fence +:+ "json" +:+ String nl r)) with true.
    change (drop 3 (fence +:+ "json" +:+ String nl r))
      with ("json" +:+ String nl r).
    cbv iota. change (startswith "json" ("json" +:+ String nl r)) with true.
    change (drop 4 ("json" +:+ String nl r)) with (String nl r).
    cbv iota. now rewrite Hnl.
Qed.

Lemma findall_first_skip pre s :
  has_char backtick pre = false ->
  Re.findall_first (pre +:+ s) = Re.findall_first s.
Proof.
  induction pre as [|c pre IH]; [reflexivity|]. cbn [has_char].
  intros [Hc Hpre]%orb_false_iff. rewrite app_cons, findall_first_unfold.
  rewrite match_at_no_backtick; [auto|]. intros ->. discriminate.
Qed.

Lemma contains_app_fence pre r : contains fence (pre +:+ fence +:+ r) = true.
Proof.
  induction pre as [|c pre IH]; [reflexivity|].
  rewrite app_cons. cbn [contains]. rewrite IH. apply orb_true_r.
Qed.

Lemma unquoted_backtick pre r :
  has_char backtick pre = false ->
  has_char "034" pre = false ->
  backticks_quoted false (pre +:+ String backtick r) = false.
Proof.
  induction pre as [|c pre IH]; [reflexivity|]. cbn [has_char].
  intros [Hc Hb]%orb_false_iff [Hq Hq']%orb_false_iff.
  rewrite app_cons. cbn [backticks_quoted]. rewrite Hq, Hc.
  destruct (Ascii.eqb c nl); auto.
Qed.

Lemma rstrip_fenced tag p : rstrip (fenced tag p) = fenced tag p.
Proof.
  unfold fenced.
  replace (fence +:+ tag +:+ String nl (p +:+ closing))
    with ((fence +:+ tag +:+ String nl (p +:+ String nl "")) +:+ fence).
  - now rewrite rstrip_app_end.
  - rewrite !app_assoc', !app_cons. do 2 f_equal.
    now rewrite app_assoc', app_cons.
Qed.

Lemma strip_around_fenced pre tag p post :
  strip (pre +:+ fenced tag p +:+ post)
  = lstrip pre +:+ fenced tag p +:+ rstrip post.
Proof.
  unfold strip. rewrite <- app_assoc', rstrip_app.
  assert (H : (if String.eqb (rstrip post) ""
               then rstrip (pre +:+ fenced tag p)
               else (pre +:+ fenced tag p) +:+ rstrip post)
              = pre +:+ fenced tag p +:+ rstrip post).
  { destruct (String.eqb_spec (rstrip post) "") as [->|_].
    - rewrite app_empty_r. apply rstrip_app_end; [apply rstrip_fenced | discriminate].
    - apply app_assoc'. }
  rewrite H.
  change (fenced tag p +:+ rstrip post)
    with (String backtick (String backtick (String backtick
            (tag +:+ String nl (p +:+ closing))) +:+ rstrip post)).
  now rewrite lstrip_app_nonspace.
Qed.

End FenceProse.

Section FencedInProse.
Import PyStr FenceFacts FenceProse.

Variable json_loads : string -> string + json.

(** the facts of [json.loads] used for fenced payloads: white space around
    an accepted text is immaterial, and each backtick of an accepted text
    stands between two double quotes of its own line *)
Hypothesis loads_trim :
  forall w1 s w2 v,
    all_space w1 = true -> all_space w2 = true ->
    json_loads (w1 +:+ s +:+ w2) = inr v -> json_loads s = inr v.
Hypothesis loads_backticks :
  forall s v, json_loads s = inr v -> backticks_quoted false s = true.


End FencedInProse.

(** ** The stage clients *)

Section StageFacts.

Variables LLM Clock : Type.
Variable now : Clock -> datetime * Clock.
Variable create : request -> LLM -> (exn + string) * LLM.
Variable json_loads : string -> string + json.
Variable py_repr : string -> string.
Variable py_str : json -> string.

Abbreviation world := (world LLM Clock).
Abbreviation M := (M LLM Clock).
Abbreviation classify := (classify now create json_loads py_repr py_str).
Abbreviation extract := (extract now create json_loads).
Abbreviation generate := (generate now create json_loads py_repr).

Lemma silentM_lift {A} (x : exn + A) : silentM (lift (LLM:=LLM) (Clock:=Clock) x).
Proof. intros w r w' [= <- <-]. auto. Qed.

Lemma silentM_ret {A} (a : A) : silentM (ret (LLM:=LLM) (Clock:=Clock) a).
Proof. intros w r w' [= <- <-]. auto. Qed.

Lemma silentM_raise {A} e : silentM (@raise LLM Clock A e).
Proof. intros w r w' [= <- <-]. auto. Qed.

Lemma silentM_call r : silentM (Clock:=Clock) (call_collaborator create r).
Proof.
  intros w x w'. unfold call_collaborator.
  destruct (create r (w_llm w)) as [reply l]. intros [= <- <-]. auto.
Qed.

Lemma stage_body_bind {A B} stage id (m : M A) (k : A -> M B) :
  silentM m -> (forall a, stage_body stage id (k a)) ->
  stage_body stage id (bind m k).
Proof.
  intros Hm Hk w r w'. unfold bind. destruct (m w) as [[e|a] w1] eqn:E.
  - intros [= <- <-]. destruct (Hm _ _ _ E) as [Hd Hl]. auto.
  - intros Hr. destruct (Hm _ _ _ E) as [Hd Hl].
    destruct (Hk a _ _ _ Hr) as [Hd' Hl'].
    rewrite Hd, Hl in *. auto.
Qed.

Lemma stage_body_log {A} stage id details (a : A) :
  stage_body stage id
    (bind (log_stage (LLM:=LLM) now stage "SUCCESS" id details) (fun _ => ret a)).
Proof.
  intros w r w'. unfold log_stage, bind, read_clock, append_log, ret.
  destruct (now (w_clock w)) as [t c]. cbn. intros [= <- <-].
  split; [reflexivity|]. eexists. repeat split.
Qed.

(** the handler of a stage turns the outcome of the body into the contract *)
Lemma stage_contract_try {A} stage id prefix parse_prefix (body : M A) :
  stage_body stage id body ->
  stage_contract stage id prefix parse_prefix
    (try_except body
       (fun e =>
          bind (log_error now id stage e)
            (fun _ => match e with
                      | JSONDecodeError _ =>
                          raise (Exception (parse_prefix +:+ exn_str e))
                      | _ => raise (Exception (prefix +:+ exn_str e))
                      end))).
Proof.
  intros Hbody w r w'. unfold try_except.
  destruct (body w) as [[e|a] w1] eqn:E; destruct (Hbody _ _ _ E) as [Hd Hl].
  - unfold log_error, log_stage, bind, read_clock, append_log.
    destruct (now (w_clock w1)) as [t c]. cbn.
    intros Hr. assert (Hr' : r = inl (Exception
                                        ((match e with
                                          | JSONDecodeError _ => parse_prefix
                                          | _ => prefix
                                          end) +:+ exn_str e))
                             /\ w_dirs w' = w_dirs w1
                             /\ w_log w' = (w_log w1 ++
                                  [{| le_timestamp := isoformat t;
                                      le_stage := stage; le_status := "FAILURE";
                                      le_input_id := id;
                                      le_details :=
                                        Some [("error", JStr (exn_str e));
                                              ("error_type",
                                               JStr (exn_type_name e))] |}])%list).
    { destruct e; unfold raise in Hr; injection Hr as <- <-; auto. }
    destruct Hr' as (-> & Hd' & Hl'). split; [congruence|].
    eexists. rewrite Hl', Hl. split; [reflexivity|].
    repeat split. exists e. repeat split.
  - intros [= <- <-]. split; [exact Hd|].
    destruct Hl as (l & Hl & Hs & Hi & Hst). exists l. auto.
Qed.

Ltac stage_body_steps :=
  repeat first
    [ apply stage_body_log
    | apply stage_body_bind;
      [ first [ apply silentM_lift | apply silentM_call | apply silentM_ret
              | apply silentM_raise
              | match goal with
                | |- silentM (if ?b then _ else _) =>
                    destruct b; [apply silentM_ret | apply silentM_raise]
                | |- silentM (match ?x with _ => _ end) =>
                    destruct x; first [apply silentM_ret | apply silentM_raise]
                end ]
      | intro ] ].

(** X8: [classify] keeps the uniform contract of a stage: it never touches
    the output directories and appends exactly one log entry, of the stage
    CLASSIFY; SUCCESS when it returns, otherwise FAILURE with the text and
    the class of the cause, which it re-raises as an [Exception] under the
    prefix of the stage. *)
Theorem classify_contract (content input_id : string) :
  stage_contract "CLASSIFY" input_id "Classification failed: "
    "Failed to parse classification response as JSON: "
    (classify content input_id).
Proof. unfold classify. apply stage_contract_try. stage_body_steps. Qed.

(** X9: [extract] never touches the output directories and appends exactly
    one log entry, of the stage EXTRACT; SUCCESS when it returns, otherwise
    FAILURE with the text and the class of the cause, which it re-raises as
    an [Exception] under the prefix of the stage. *)
Theorem extract_contract (content content_type input_id : string) :
  stage_contract "EXTRACT" input_id "Metadata extraction failed: "
    "Failed to parse metadata extraction response: "
    (extract content content_type input_id).
Proof. unfold extract. apply stage_contract_try. stage_body_steps. Qed.

(** X10: once its prompt is built, [generate] never touches the output
    directories and appends exactly one log entry, of the stage GENERATE;
    SUCCESS when it returns, otherwise FAILURE with the text and the class
    of the cause, which it re-raises as an [Exception] under the prefix of
    the stage. *)
Theorem generate_contract (content : string) (metadata : json)
    (content_type input_id : string) (p : prompt) :
  build_generation_prompt content metadata content_type = inr p ->
  stage_contract "GENERATE" input_id "Headline generation failed: "
    "Failed to parse headline generation response: "
    (generate content metadata content_type input_id).
Proof.
  intros Hp w r w' H. unfold generate, bind at 1, lift at 1 in H.
  rewrite Hp in H. revert w r w' H.
  apply stage_contract_try. stage_body_steps.
Qed.

(** X11: when the prompt cannot be built, because [teams] is a non-empty
    value that [join] rejects, or [players] a non-empty value whose first
    three items it rejects, [generate] raises the [TypeError] as it is:
    nothing is logged and the collaborator is not called. *)
Theorem generate_prompt_error (content : string) (kvs : list (string * json))
    (content_type input_id : string) (w : world) :
  let teams := default (JArr []) (Py.dict_get "teams" kvs) in
  let players := default (JArr []) (Py.dict_get "players" kvs) in
  (Py.truthy teams = true /\ Py.str_items teams = None)
  \/ (Py.truthy players = true /\ (Py.first3 players ≫= Py.str_items) = None) ->
  exists msg,
    generate content (JObj kvs) content_type input_id w = (inl (TypeError msg), w).
Proof.
  intros teams players Hbad.
  assert (Hb : exists msg,
             build_generation_prompt content (JObj kvs) content_type
             = inl (TypeError msg)).
  { unfold build_generation_prompt. cbn [Py.get].
    fold teams. fold players. unfold Py.join_first3, Py.join_items.
    destruct Hbad as [[Ht Hs] | [Ht Hs]].
    - rewrite Ht, Hs. eauto.
    - rewrite Ht. destruct (Py.truthy teams);
        [destruct (Py.str_items teams)|];
        (destruct (Py.first3 players) as [p3|]; cbn in Hs;
         try rewrite Hs; eauto). }
  destruct Hb as [msg Hb]. exists msg.
  unfold generate, bind, lift. now rewrite Hb.
Qed.

(** *** What a stage returns *)

Lemma stage_handler_raises {A} stage id prefix parse_prefix e (w1 : world) :
  exists e' w2,
    bind (log_error now id stage e)
      (fun _ => match e with
                | JSONDecodeError _ =>
                    raise (A:=A) (Exception (parse_prefix +:+ exn_str e))
                | _ => raise (Exception (prefix +:+ exn_str e))
                end) w1 = (inl e', w2).
Proof.
  unfold bind. destruct (log_error now id stage e w1) as [[e0|[]] w2]; [eauto|].
  destruct e; unfold raise; eauto.
Qed.

Lemma call_returns r (w : world) reply w1 :
  call_collaborator create r w = (inr reply, w1) ->
  create r (w_llm w) = (inr reply, w_llm w1).
Proof.
  unfold call_collaborator. destruct (create r (w_llm w)) as [x l].
  now intros [= -> <-].
Qed.

Lemma lift_returns {A} (x : exn + A) (w : world) a w1 :
  lift x w = (inr a, w1) -> x = inr a /\ w1 = w.
Proof. now intros [= -> <-]. Qed.

Lemma log_stage_llm stage st id details (w : world) r w1 :
  log_stage now stage st id details w = (r, w1) -> w_llm w1 = w_llm w.
Proof.
  unfold log_stage, bind, read_clock, append_log.
  destruct (now (w_clock w)) as [t c]. cbn. now intros [= <- <-].
Qed.

Lemma dict_subscript kvs k v :
  Py.subscript (JObj kvs) k = inr v -> Py.dict_get k kvs = Some v.
Proof. cbn. destruct (Py.dict_get k kvs); now intros [= ->]. Qed.

(** X12: what [classify] returns is the value extracted from the reply of
    the collaborator to the classification request: a dict that has the
    three keys, with one of the five content types under [content_type]. *)
Theorem classify_returns_classification content id (w : world) cls w' :
  classify content id w = (inr cls, w') ->
  exists reply kvs ct confidence reasoning,
    create (classify_request content) (w_llm w) = (inr reply, w_llm w')
    /\ Utils.extract_json_from_response json_loads reply
         ("classification for " +:+ id) = inr cls
    /\ cls = JObj kvs
    /\ Py.dict_get "content_type" kvs = Some (JStr ct) /\ ct ∈ valid_types
    /\ Py.dict_get "confidence" kvs = Some confidence
    /\ Py.dict_get "reasoning" kvs = Some reasoning.
Proof.
  unfold classify. intros H.
  apply try_except_returns in H; [|intros; apply stage_handler_raises].
  apply bind_returns in H as (reply & w1 & Hcall%call_returns & H).
  apply bind_returns in H as (result & w2 & [Hparse ->]%lift_returns & H).
  apply bind_returns in H as ([] & w3 & [Hvalid ->]%lift_returns & H).
  apply bind_returns in H as (ct & w4 & [Hct ->]%lift_returns & H).
  apply bind_returns in H as ([] & w5 & Hv & H).
  apply bind_returns in H as (cf & w6 & [Hcf ->]%lift_returns & H).
  apply bind_returns in H as ([] & w7 & Hlog%log_stage_llm & H).
  injection H as <- <-.
  destruct (in_valid_types ct) eqn:E; [|discriminate Hv].
  injection Hv as <-.
  destruct (validated_keys_present _ _ _ _ Hvalid) as [[kvs ->] Hkeys].
  destruct (Hkeys "reasoning") as [reasoning Hr]; [repeat constructor|].
  destruct ct as [| | | |s| |]; try discriminate E.
  apply bool_decide_eq_true in E.
  exists reply, kvs, s, cf, reasoning. rewrite Hlog.
  repeat split; auto using dict_subscript.
Qed.

(** X13: what [extract] returns is the value extracted from the reply to the
    extraction request of the content type: a dict, whose [teams] and
    [players], when present, have a length. *)
Theorem extract_returns_metadata content ct id (w : world) md w' :
  extract content ct id w = (inr md, w') ->
  exists reply kvs teams_found players_found,
    create (extraction_request content ct) (w_llm w) = (inr reply, w_llm w')
    /\ Utils.extract_json_from_response json_loads reply
         ("metadata extraction for " +:+ id) = inr md
    /\ md = JObj kvs
    /\ Py.len (default (JArr []) (Py.dict_get "teams" kvs)) = inr teams_found
    /\ Py.len (default (JArr []) (Py.dict_get "players" kvs)) = inr players_found.
Proof.
  unfold extract. intros H.
  apply try_except_returns in H; [|intros; apply stage_handler_raises].
  apply bind_returns in H as (reply & w1 & Hcall%call_returns & H).
  apply bind_returns in H as (result & w2 & [Hparse ->]%lift_returns & H).
  apply bind_returns in H as ([] & w3 & Hdict & H).
  destruct result as [| | | | | |kvs]; try discriminate Hdict.
  injection Hdict as <-.
  apply bind_returns in H as (teams & w4 & [Ht ->]%lift_returns & H).
  apply bind_returns in H as (tf & w5 & [Htf ->]%lift_returns & H).
  apply bind_returns in H as (players & w6 & [Hp ->]%lift_returns & H).
  apply bind_returns in H as (pf & w7 & [Hpf ->]%lift_returns & H).
  apply bind_returns in H as (comp & w8 & [Hc ->]%lift_returns & H).
  apply bind_returns in H as ([] & w9 & Hlog%log_stage_llm & H).
  injection H as <- <-. cbn in Ht, Hp. injection Ht as <-. injection Hp as <-.
  exists reply, kvs, tf, pf. rewrite Hlog. auto.
Qed.

(** X14: what [generate] returns is the value extracted from the reply to
    the generation request, sent with its own temperature: a dict that has
    the three headline keys. *)
Theorem generate_returns_headlines content md ct id (w : world) hl w' :
  generate content md ct id w = (inr hl, w') ->
  exists p reply kvs neutral fan casual,
    build_generation_prompt content md ct = inr p
    /\ create (generation_request p) (w_llm w) = (inr reply, w_llm w')
    /\ Utils.extract_json_from_response json_loads reply
         ("headline generation for " +:+ id) = inr hl
    /\ hl = JObj kvs
    /\ Py.dict_get "neutral" kvs = Some neutral
    /\ Py.dict_get "fan_oriented" kvs = Some fan
    /\ Py.dict_get "casual_viewer" kvs = Some casual.
Proof.
  unfold generate. intros H.
  apply bind_returns in H as (p & w0 & [Hp ->]%lift_returns & H).
  apply try_except_returns in H; [|intros; apply stage_handler_raises].
  apply bind_returns in H as (reply & w1 & Hcall%call_returns & H).
  apply bind_returns in H as (result & w2 & [Hparse ->]%lift_returns & H).
  apply bind_returns in H as ([] & w3 & [Hvalid ->]%lift_returns & H).
  apply bind_returns in H as ([] & w4 & Hlog%log_stage_llm & H).
  injection H as <- <-.
  destruct (validated_keys_present _ _ _ _ Hvalid) as [[kvs ->] Hkeys].
  destruct (Hkeys "neutral") as [a Ha]; [repeat constructor|].
  destruct (Hkeys "fan_oriented") as [b Hb]; [repeat constructor|].
  destruct (Hkeys "casual_viewer") as [c Hc]; [repeat constructor|].
  exists p, reply, kvs, a, b, c. rewrite Hlog.
  repeat split; auto using dict_subscript.
Qed.

End StageFacts.

(** ** The router: files and directories *)

Section RouterMore.
Import RouterFacts.

Variables LLM Clock : Type.
Variable now : Clock -> datetime * Clock.

Abbreviation world := (world LLM Clock).
Abbreviation route := (route (LLM:=LLM) now).

Lemma file_at_write (ds : dirs) dir entries fn pkg d n :
  ds !! dir = Some entries ->
  file_at (<[dir := <[fn := pkg]> entries]> ds) d n
  = if decide (d = dir /\ n = fn) then Some pkg else file_at ds d n.
Proof.
  intros Hdir. unfold file_at. destruct (decide (d = dir)) as [->|Hd].
  - rewrite lookup_insert_eq, Hdir. cbn.
    destruct (decide (n = fn)) as [->|Hn].
    + rewrite lookup_insert_eq. now rewrite decide_True.
    + rewrite lookup_insert_ne by congruence.
      rewrite decide_False by (intros [_ ?]; congruence). reflexivity.
  - rewrite lookup_insert_ne by congruence.
    rewrite decide_False by (intros [? _]; congruence). reflexivity.
Qed.



(** *** The bucket directories *)

Lemma lookup_mkdirs (l : list string) (ds : dirs) d :
  foldl (fun acc dir_name => mkdir dir_name acc) ds l !! d
  = match ds !! d with
    | Some entries => Some entries
    | None => if bool_decide (d ∈ l) then Some ∅ else None
    end.
Proof.
  revert ds. induction l as [|x l IH]; intros ds; cbn [foldl].
  - destruct (ds !! d); [reflexivity|]. now rewrite bool_decide_eq_false_2
      by (intros H; inversion H).
  - rewrite IH. unfold mkdir.
    destruct (ds !! x) as [ex|] eqn:Ex.
    + destruct (ds !! d) as [e|] eqn:Ed; [reflexivity|].
      assert (x <> d) by congruence.
      rewrite (bool_decide_ext (d ∈ x :: l) (d ∈ l)); [reflexivity|].
      rewrite elem_of_cons. split; [intros [?|?]; [congruence | done] | auto].
    + destruct (decide (x = d)) as [->|Hne].
      * rewrite lookup_insert_eq, Ex.
        rewrite bool_decide_eq_true_2 by left. reflexivity.
      * rewrite lookup_insert_ne by exact Hne.
        destruct (ds !! d); [reflexivity|].
        rewrite (bool_decide_ext (d ∈ x :: l) (d ∈ l)); [reflexivity|].
        rewrite elem_of_cons. split; [intros [?|?]; [congruence | done] | auto].
Qed.

Lemma lookup_router_init (ds : dirs) d :
  router_init ds !! d
  = match ds !! d with
    | Some entries => Some entries
    | None => if bool_decide (d ∈ Config.CONTENT_TYPE_DIRS.*2)
              then Some ∅ else None
    end.
Proof. apply lookup_mkdirs. Qed.

Lemma bucket_in_table ct : bucket_of ct ∈ Config.CONTENT_TYPE_DIRS.*2.
Proof.
  unfold bucket_of, Config.CONTENT_TYPE_DIRS. cbn -[String.eqb].
  repeat match goal with
         | |- context [String.eqb ?a ?b] => destruct (String.eqb a b)
         end; cbn; set_solver.
Qed.

Lemma buckets_exist_bucket (ds : dirs) ct :
  buckets_exist ds -> is_Some (ds !! bucket_of ct).
Proof.
  unfold buckets_exist. rewrite Forall_forall. intros H. apply H, bucket_in_table.
Qed.

(** X17: constructing the router leaves the five bucket directories in
    place; a directory that was there keeps its entries, no file appears or
    disappears, and constructing it again changes nothing. *)
Theorem router_init_buckets (ds : dirs) :
  buckets_exist (router_init ds)
  /\ (forall d entries, ds !! d = Some entries ->
                        router_init ds !! d = Some entries)
  /\ (forall d n, file_at (router_init ds) d n = file_at ds d n)
  /\ router_init (router_init ds) = router_init ds.
Proof.
  split; [|split; [|split]].
  - unfold buckets_exist. apply Forall_forall. intros d Hd.
    rewrite lookup_router_init. destruct (ds !! d); [eauto|].
    rewrite bool_decide_eq_true_2 by exact Hd. eauto.
  - intros d entries Hd. now rewrite lookup_router_init, Hd.
  - intros d n. unfold file_at. rewrite lookup_router_init.
    destruct (ds !! d); [reflexivity|].
    destruct (bool_decide _); [|reflexivity]. cbn. apply lookup_empty.
  - apply map_eq. intros d. rewrite (lookup_router_init (router_init ds)).
    rewrite lookup_router_init. destruct (ds !! d); [reflexivity|].
    now destruct (bool_decide _).
Qed.


(** X19: the content types the classifier accepts are exactly the keys of
    the routing table, and exactly the keys of the stats, in that order; so
    a classified item never takes the fallback for want of a key. *)
Theorem valid_types_are_table_keys :
  (forall ct, ct ∈ valid_types
              <-> is_Some (Config.table_get ct Config.CONTENT_TYPE_DIRS))
  /\ (forall ds, (get_routing_stats ds).*1 = valid_types)
  /\ (forall ct, ct ∈ valid_types ->
                 Config.table_get ct Config.CONTENT_TYPE_DIRS = Some (bucket_of ct)).
Proof.
  assert (Hkeys : forall ct, ct ∈ valid_types
                    <-> is_Some (Config.table_get ct Config.CONTENT_TYPE_DIRS)).
  { intros ct. unfold valid_types, Config.CONTENT_TYPE_DIRS.
    cbn -[String.eqb]. rewrite !elem_of_cons, elem_of_nil.
    repeat match goal with
           | |- context [String.eqb ?a ?b] =>
               destruct (String.eqb_spec a b) as [<-|]
           end; (split; intros H;
                 [ first [ now eauto | exfalso; intuition congruence ]
                 | first [ destruct H as [? H]; discriminate H
                         | intuition ] ]). }
  split; [exact Hkeys|]. split; [reflexivity|].
  intros ct Hct. destruct (proj1 (Hkeys ct) Hct) as [d Hd].
  unfold bucket_of. now rewrite Hd.
Qed.

End RouterMore.

(** ** The orchestrator: what an item leaves behind *)

Section OrchestratorMore.
Import RouterFacts.

Variables LLM Clock : Type.
Variable now : Clock -> datetime * Clock.
Variable create : request -> LLM -> (exn + string) * LLM.
Variable json_loads : string -> string + json.
Variable py_repr : string -> string.
Variable py_str : json -> string.

Abbreviation world := (world LLM Clock).
Abbreviation M := (M LLM Clock).
Abbreviation classify := (classify now create json_loads py_repr py_str).
Abbreviation extract := (extract now create json_loads).
Abbreviation generate := (generate now create json_loads py_repr).
Abbreviation route := (route (LLM:=LLM) now).
Abbreviation run_stages := (run_stages now create json_loads py_repr py_str).
Abbreviation process := (process now create json_loads py_repr py_str).
Abbreviation process_items := (process_items now create json_loads py_repr py_str).
Abbreviation process_batch := (process_batch now create json_loads py_repr py_str).

Lemma bind_cases {A B} (m : M A) (k : A -> M B) w r w' :
  bind m k w = (r, w') ->
  (exists e, m w = (inl e, w') /\ r = inl e)
  \/ (exists a w1, m w = (inr a, w1) /\ k a w1 = (r, w')).
Proof.
  unfold bind. destruct (m w) as [[e|a] w1].
  - intros [= <- <-]. left. eauto.
  - intros H. right. eauto.
Qed.

Lemma lift_world {A} (x : exn + A) (w : world) r w1 :
  lift x w = (r, w1) -> w1 = w.
Proof. now intros [= _ <-]. Qed.

Lemma classify_dirs content id (w : world) r w1 :
  classify content id w = (r, w1) -> w_dirs w1 = w_dirs w.
Proof. intros H. now destruct (quietM_classify _ _ _ _ _ _ _ _ _ _ _ _ H). Qed.

Lemma extract_dirs content ct id (w : world) r w1 :
  extract content ct id w = (r, w1) -> w_dirs w1 = w_dirs w.
Proof. intros H. now destruct (quietM_extract _ _ _ _ _ _ _ _ _ _ _ H). Qed.

Lemma generate_dirs content md ct id (w : world) r w1 :
  generate content md ct id w = (r, w1) -> w_dirs w1 = w_dirs w.
Proof. intros H. now destruct (quietM_generate _ _ _ _ _ _ _ _ _ _ _ _ _ H). Qed.

(** what the body of the [try] of [process] leaves: nothing in the
    directories when it raises; when it returns, one record in the bucket
    of the content type, and a last log entry that names its path *)
Lemma run_stages_outcome content id (w0 : world) r w1 :
  run_stages content id w0 = (r, w1) ->
  match r with
  | inl _ => w_dirs w1 = w_dirs w0
  | inr res =>
      exists cls md hl ct fn pkg l,
        res = Success id cls md hl
                (Config.OUTPUT_DIR +:+ "/" +:+ bucket_of ct +:+ "/" +:+ fn)
        /\ Py.subscript cls "content_type" = inr (JStr ct)
        /\ ct ∈ valid_types
        /\ wrote_file (w_dirs w0) (w_dirs w1) (bucket_of ct) fn pkg
        /\ PyStr.endswith ".json" fn = true
        /\ pkg_input_id pkg = id /\ pkg_content_type pkg = ct
        /\ pkg_classification pkg = cls /\ pkg_metadata pkg = md
        /\ pkg_headlines pkg = hl /\ pkg_original_content pkg = content
        /\ last (w_log w1) = Some l
        /\ le_stage l = "PROCESS_COMPLETE" /\ le_status l = "SUCCESS"
        /\ le_details l =
             Some [("output_path",
                    JStr (Config.OUTPUT_DIR +:+ "/" +:+ bucket_of ct
                            +:+ "/" +:+ fn))]
  end.
Proof.
  unfold run_stages. intros H.
  apply bind_cases in H as [(e & E & ->) | (cls & wa & Ecls & H)];
    [now apply classify_dirs in E|].
  pose proof (classify_dirs _ _ _ _ _ Ecls) as Da.
  destruct (classify_returns_valid _ _ _ _ _ _ _ _ _ _ _ _ Ecls)
    as (ct & Hct & Hvalid).
  apply bind_cases in H as [(e & E & ->) | (ct' & wb & E & H)];
    apply lift_world in E as E'; subst; [exact Da|].
  rewrite Hct in E. injection E as <-.
  apply bind_cases in H as [(e & E & ->) | (ct' & wb & E & H)];
    [discriminate E|]. injection E as <- <-.
  apply bind_cases in H as [(e & E & ->) | (cf & wb & E & H)];
    apply lift_world in E as E'; subst; [exact Da|]. clear E.
  apply bind_cases in H as [(e & E & ->) | (rs & wb & E & H)];
    apply lift_world in E as E'; subst; [exact Da|]. clear E.
  apply bind_cases in H as [(e & E & ->) | (md & wb & Emd & H)];
    [apply extract_dirs in E; congruence|].
  pose proof (extract_dirs _ _ _ _ _ _ Emd) as Db.
  apply bind_cases in H as [(e & E & ->) | (teams & wc & E & H)];
    apply lift_world in E as E'; subst; [congruence|]. clear E.
  apply bind_cases in H as [(e & E & ->) | (ts & wc & E & H)];
    apply lift_world in E as E'; subst; [congruence|]. clear E.
  apply bind_cases in H as [(e & E & ->) | (players & wc & E & H)];
    apply lift_world in E as E'; subst; [congruence|]. clear E.
  apply bind_cases in H as [(e & E & ->) | (ps & wc & E & H)];
    apply lift_world in E as E'; subst; [congruence|]. clear E.
  apply bind_cases in H as [(e & E & ->) | (hl & wc & Ehl & H)];
    [apply generate_dirs in E; congruence|].
  pose proof (generate_dirs _ _ _ _ _ _ _ Ehl) as Dc.
  apply bind_cases in H as [(e & E & ->) | (h1 & wd & E & H)];
    apply lift_world in E as E'; subst; [congruence|]. clear E.
  apply bind_cases in H as [(e & E & ->) | (h2 & wd & E & H)];
    apply lift_world in E as E'; subst; [congruence|]. clear E.
  apply bind_cases in H as [(e & E & ->) | (h3 & wd & E & H)];
    apply lift_world in E as E'; subst; [congruence|]. clear E.
  pose proof (route_run LLM Clock now id ct content cls md hl wc) as Hrun.
  cbv zeta in Hrun.
  assert (Dw : w_dirs wc = w_dirs w0) by congruence.
  destruct (w_dirs wc !! bucket_of ct) as [entries|] eqn:Hdir.
  - destruct Hrun as (pkg & wr & Hr & Hd & Hid & Hty & Hc & Hm & Hh & Ho).
    unfold bind at 1 in H. rewrite Hr in H.
    unfold log_complete, log_stage, bind, read_clock, append_log, ret in H.
    destruct (now (w_clock wr)) as [t c]. cbn in H. injection H as <- <-.
    cbn. exists cls, md, hl, ct, (route_file_name now id wc), pkg.
    eexists. split; [reflexivity|]. split; [exact Hct|]. split; [exact Hvalid|].
    split.
    { exists entries. rewrite <- Dw. split; [exact Hdir | exact Hd]. }
    split; [apply route_file_name_json|].
    repeat (split; [assumption|]). rewrite last_snoc. repeat split.
  - destruct Hrun as (msg & wr & Hr & Hd).
    unfold bind at 1 in H. rewrite Hr in H. injection H as <- <-. congruence.
Qed.

(** *** Steps that only append to the log *)

Lemma never_logs_refl s (w : world) : never_logs s w w.
Proof. exists []. split; [unfold logged; now rewrite app_nil_r | constructor]. Qed.

Lemma never_logs_trans s (w1 w2 w3 : world) :
  never_logs s w1 w2 -> never_logs s w2 w3 -> never_logs s w1 w3.
Proof.
  intros (es1 & Hl1 & Hn1) (es2 & Hl2 & Hn2). exists (es1 ++ es2)%list. split.
  - unfold logged in *. now rewrite Hl2, Hl1, app_assoc.
  - now apply Forall_app.
Qed.

Lemma appends_ret s {A} (a : A) :
  holdsM (never_logs s) (ret (LLM:=LLM) (Clock:=Clock) a).
Proof. intros w r w' [= <- <-]. apply never_logs_refl. Qed.

Lemma appends_raise s {A} e : holdsM (never_logs s) (@raise LLM Clock A e).
Proof. intros w r w' [= <- <-]. apply never_logs_refl. Qed.

Lemma appends_lift s {A} (x : exn + A) :
  holdsM (never_logs s) (lift (LLM:=LLM) (Clock:=Clock) x).
Proof. intros w r w' [= <- <-]. apply never_logs_refl. Qed.

Lemma appends_bind s {A B} (m : M A) (k : A -> M B) :
  holdsM (never_logs s) m -> (forall a, holdsM (never_logs s) (k a)) ->
  holdsM (never_logs s) (bind m k).
Proof.
  intros Hm Hk w r w'. unfold bind. destruct (m w) as [[e|a] w1] eqn:E.
  - intros [= <- <-]. eauto.
  - intros Hr. eapply never_logs_trans; [eapply Hm | eapply Hk]; eauto.
Qed.

Lemma appends_try s {A} (m : M A) (h : exn -> M A) :
  holdsM (never_logs s) m -> (forall e, holdsM (never_logs s) (h e)) ->
  holdsM (never_logs s) (try_except m h).
Proof.
  intros Hm Hh w r w'. unfold try_except. destruct (m w) as [[e|a] w1] eqn:E.
  - intros Hr. eapply never_logs_trans; [eapply Hm | eapply Hh]; eauto.
  - intros [= <- <-]. eauto.
Qed.

Lemma appends_read_clock s : holdsM (never_logs s) (read_clock (LLM:=LLM) now).
Proof.
  intros w r w'. unfold read_clock. destruct (now (w_clock w)) as [t c].
  intros [= <- <-]. exists []. split; [|constructor].
  unfold logged. simpl. now rewrite app_nil_r.
Qed.

Lemma appends_call s r :
  holdsM (never_logs s) (call_collaborator (Clock:=Clock) create r).
Proof.
  intros w x w'. unfold call_collaborator.
  destruct (create r (w_llm w)) as [reply l].
  intros [= <- <-]. exists []. split; [|constructor].
  unfold logged. simpl. now rewrite app_nil_r.
Qed.

Lemma appends_write_file s d fn pkg :
  holdsM (never_logs s) (write_file (LLM:=LLM) (Clock:=Clock) d fn pkg).
Proof.
  intros w x w'. unfold write_file. destruct (w_dirs w !! d);
    intros [= <- <-]; (exists []; split; [|constructor]);
    unfold logged; simpl; now rewrite app_nil_r.
Qed.

Lemma appends_log_stage s stage st id details :
  stage <> s -> holdsM (never_logs s) (log_stage (LLM:=LLM) now stage st id details).
Proof.
  intros Hst w r w'. unfold log_stage, bind, read_clock, append_log.
  destruct (now (w_clock w)) as [t c]. simpl.
  intros [= <- <-]. eexists [_]. split; [reflexivity|].
  repeat constructor. exact Hst.
Qed.

Ltac append_steps :=
  repeat first
    [ apply appends_ret | apply appends_raise | apply appends_lift
    | apply appends_read_clock | apply appends_call | apply appends_write_file
    | apply appends_log_stage; first [discriminate | congruence]
    | apply appends_bind | apply appends_try
    | match goal with
      | |- forall _, holdsM _ _ => intro
      | |- holdsM _ (match ?x with _ => _ end) => destruct x
      | |- holdsM _ (if ?b then _ else _) => destruct b
      end ].

Lemma raises_bind s {A B} (m : M A) (k : A -> M B) :
  holdsM (never_logs s) m -> (forall a, raisesM (never_logs s) (k a)) ->
  raisesM (never_logs s) (bind m k).
Proof.
  intros Hm Hk w e w'. unfold bind. destruct (m w) as [[e1|a] w1] eqn:E.
  - intros [= <- <-]. eauto.
  - intros Hr. eapply never_logs_trans; [eapply Hm | eapply Hk]; eauto.
Qed.

Lemma appends_route s id ct content cls md hl :
  s <> "ROUTE" -> holdsM (never_logs s) (route id ct content cls md hl).
Proof.
  intros Hs. unfold route, log_error.
  repeat first
    [ apply appends_ret | apply appends_raise | apply appends_read_clock
    | apply appends_write_file | apply appends_log_stage; congruence
    | apply appends_bind | apply appends_try | intro ].
Qed.

Lemma appends_classify s content id :
  s <> "CLASSIFY" -> holdsM (never_logs s) (classify content id).
Proof.
  intros Hs. unfold classify, log_error. append_steps.
Qed.

Lemma appends_extract s content ct id :
  s <> "EXTRACT" -> holdsM (never_logs s) (extract content ct id).
Proof.
  intros Hs. unfold extract, log_error. append_steps.
Qed.

Lemma appends_generate s content md ct id :
  s <> "GENERATE" -> holdsM (never_logs s) (generate content md ct id).
Proof.
  intros Hs. unfold generate, log_error. append_steps.
Qed.

(** the body of the [try] writes no PROCESS_START entry *)
Lemma run_stages_no_start content id :
  holdsM (never_logs "PROCESS_START") (run_stages content id).
Proof.
  unfold run_stages, log_complete.
  repeat first
    [ apply appends_classify; discriminate
    | apply appends_extract; discriminate
    | apply appends_generate; discriminate
    | apply appends_route; discriminate
    | progress append_steps ].
Qed.

(** when the body of the [try] raises, it has written no PROCESS_COMPLETE
    entry *)
Lemma run_stages_raises_incomplete content id :
  raisesM (never_logs "PROCESS_COMPLETE") (run_stages content id).
Proof.
  unfold run_stages.
  repeat (apply raises_bind;
          [ solve [ apply appends_classify; discriminate
                  | apply appends_extract; discriminate
                  | apply appends_generate; discriminate
                  | apply appends_route; discriminate
                  | append_steps ]
          | intro ]).
  intros w e w'. unfold log_complete, log_stage, bind, read_clock, append_log, ret.
  destruct (now (w_clock w)). simpl. discriminate.
Qed.

(** the statements before the [try]: one PROCESS_START entry under the id
    the item goes by, and no change of the directories *)
Lemma begin_item_entry iid src (w : world) x w0 :
  begin_item now iid src w = (x, w0) ->
  exists id l, x = inr id
    /\ w_dirs w0 = w_dirs w
    /\ w_log w0 = (w_log w ++ [l])%list
    /\ le_stage l = "PROCESS_START" /\ le_status l = "SUCCESS"
    /\ le_input_id l = id
    /\ id = match iid with
            | Some (String a i) => String a i
            | _ => "content_" +:+ stamp_micros (now (w_clock w)).1
            end.
Proof.
  unfold begin_item, log_start, log_stage, bind, read_clock, append_log, ret.
  destruct iid as [[|a i]|]; simpl;
    repeat match goal with
           | |- context [now ?c] => destruct (now c) eqn:?; simpl
           end;
    intros [= <- <-]; do 2 eexists; simpl; repeat split.
Qed.

(** [process] is the statements before the [try], then the body, then the
    handler on what the body raised *)
Lemma process_cases content iid src (w : world) r w' :
  process content iid src w = (r, w') ->
  exists id w0,
    begin_item now iid src w = (inr id, w0)
    /\ ((exists res, run_stages content id w0 = (inr res, w') /\ r = inr res)
        \/ (exists e, run_stages content id w0 = (inl e, w')
                      /\ r = inr (Failed id (exn_str e)))).
Proof.
  destruct (begin_item_returns _ _ now iid src w) as (id & w0 & Hb & _).
  rewrite (process_after_begin _ _ now create json_loads py_repr py_str
             content iid src w id w0 Hb).
  intros H. exists id, w0. split; [exact Hb|].
  destruct (run_stages content id w0) as [[e|res] w1];
    injection H as <- <-; eauto.
Qed.



(** *** Counters over a batch *)

(** what [n] successful items may do to the directories: no file goes, no
    counter goes down, and the counters sum to at most [n] more *)
Lemma total_routed_sum (ds : dirs) :
  total_routed ds =
    count_json ds "match_reports" + (count_json ds "transfer_news"
    + (count_json ds "injury_updates" + (count_json ds "opinion_pieces"
    + (count_json ds "other" + 0)))).
Proof. reflexivity. Qed.

Lemma bucket_of_cases ct :
  bucket_of ct ∈ ["match_reports"; "transfer_news"; "injury_updates";
                  "opinion_pieces"; "other"].
Proof.
  unfold bucket_of, Config.CONTENT_TYPE_DIRS. cbn -[String.eqb].
  repeat match goal with
         | |- context [String.eqb ?a ?b] => destruct (String.eqb a b)
         end; simpl; set_solver.
Qed.

Lemma wrote_file_counts ds ds' ct fn pkg :
  wrote_file ds ds' (bucket_of ct) fn pkg ->
  PyStr.endswith ".json" fn = true ->
  (forall d, count_json ds d <= count_json ds' d)
  /\ total_routed ds' <= S (total_routed ds)
  /\ (forall d n, is_Some (file_at ds d n) -> is_Some (file_at ds' d n)).
Proof.
  intros (entries & He & ->) Hfn. split; [|split].
  - intros d. rewrite (count_json_write _ _ _ _ _ _ He Hfn).
    destruct (decide _) as [->|]; [destruct (entries !! fn)|]; lia.
  - rewrite !total_routed_sum.
    rewrite !(count_json_write _ _ _ _ _ _ He Hfn).
    pose proof (bucket_of_cases ct) as Hb.
    repeat (apply elem_of_cons in Hb as [-> | Hb]);
      [| | | | | now apply elem_of_nil in Hb];
      repeat match goal with
             | |- context [decide (?a = ?b)] =>
                 destruct (decide (a = b)); try discriminate
             end; try congruence; destruct (entries !! fn); lia.
  - intros d n. unfold file_at.
    destruct (decide (d = bucket_of ct)) as [->|Hd].
    + rewrite He, lookup_insert_eq. simpl.
      destruct (decide (n = fn)) as [->|Hn].
      * rewrite lookup_insert_eq. eauto.
      * now rewrite lookup_insert_ne.
    + now rewrite lookup_insert_ne.
Qed.

Lemma process_counts content iid src (w : world) r w' :
  process content iid src w = (inr r, w') ->
  (forall d, count_json (w_dirs w) d <= count_json (w_dirs w') d)
  /\ total_routed (w_dirs w') <= total_routed (w_dirs w) + successes [r]
  /\ (forall d n, is_Some (file_at (w_dirs w) d n) ->
                  is_Some (file_at (w_dirs w') d n)).
Proof.
  intros H. apply process_cases in H as (id0 & w0 & Hb & Hcase).
  destruct (begin_item_entry _ _ _ _ _ Hb) as (_ & _ & _ & Hd & _).
  destruct Hcase as [(res & Hr & [= <-]) | (e & Hr & [= ->])];
    apply run_stages_outcome in Hr.
  - destruct Hr as (cls & md & hl & ct & fn & pkg & l & -> & _ & _
                    & Hw & Hfn & _).
    rewrite Hd in Hw.
    destruct (wrote_file_counts _ _ _ _ _ Hw Hfn) as (H1 & H2 & H3).
    split; [exact H1|]. split; [|exact H3]. unfold successes. simpl. lia.
  - rewrite Hr, Hd. split; [intros; lia|]. split; [lia | tauto].
Qed.

Lemma successes_cons r rs : successes (r :: rs) = successes [r] + successes rs.
Proof.
  unfold successes. simpl. destruct (String.eqb (status r) "success"); reflexivity.
Qed.

Lemma process_items_counts contents : forall (w : world) results w',
  process_items contents w = (inr results, w') ->
  (forall d, count_json (w_dirs w) d <= count_json (w_dirs w') d)
  /\ total_routed (w_dirs w') <= total_routed (w_dirs w) + successes results
  /\ (forall d n, is_Some (file_at (w_dirs w) d n) ->
                  is_Some (file_at (w_dirs w') d n)).
Proof.
  induction contents as [|it rest IH]; intros w results w'; simpl.
  - intros [= <- <-]. split; [intros; lia|]. split; [lia | tauto].
  - intros H.
    apply bind_cases in H as [(e & _ & [=]) | (r & w1 & Hp & H)].
    apply bind_cases in H as [(e & _ & [=]) | (rs & w2 & Hrs & H)].
    injection H as <- <-.
    destruct (process_counts _ _ _ _ _ _ Hp) as (A1 & A2 & A3).
    destruct (IH _ _ _ Hrs) as (B1 & B2 & B3).
    rewrite successes_cons. split; [|split].
    + intros d. specialize (A1 d). specialize (B1 d). lia.
    + lia.
    + intros d n Hs. apply B3, A3, Hs.
Qed.


(** *** The log of one item *)

Lemma process_result_id content iid src (w : world) r w' id w0 :
  begin_item now iid src w = (inr id, w0) ->
  process content iid src w = (inr r, w') ->
  result_id r = id.
Proof.
  intros Hb H. apply process_cases in H as (id0 & w0' & Hb' & Hcase).
  rewrite Hb in Hb'. injection Hb' as <- <-.
  destruct Hcase as [(res & Hr & [= <-]) | (e & Hr & [= ->])]; [|reflexivity].
  apply run_stages_outcome in Hr.
  now destruct Hr as (? & ? & ? & ? & ? & ? & ? & -> & _).
Qed.

(** X23: the log entries of one item: first a PROCESS_START entry under the
    id of the result and none after it; a result tagged success has a
    PROCESS_COMPLETE entry as the last one, naming the returned path; a
    result tagged failed has no PROCESS_COMPLETE entry. *)
Theorem process_log_entries content iid src (w : world) r w' :
  process content iid src w = (inr r, w') ->
  exists l es,
    w_log w' = (w_log w ++ l :: es)%list
    /\ le_stage l = "PROCESS_START" /\ le_input_id l = result_id r
    /\ Forall (fun l' => le_stage l' <> "PROCESS_START") es
    /\ match r with
       | Success _ _ _ _ path =>
           exists l', last es = Some l'
                      /\ le_stage l' = "PROCESS_COMPLETE"
                      /\ le_details l' = Some [("output_path", JStr path)]
       | Failed _ _ =>
           Forall (fun l' => le_stage l' <> "PROCESS_COMPLETE") es
       end.
Proof.
  intros H. pose proof H as Hp.
  apply process_cases in H as (id & w0 & Hb & Hcase).
  pose proof (process_result_id _ _ _ _ _ _ _ _ Hb Hp) as Hid.
  destruct (begin_item_entry _ _ _ _ _ Hb)
    as (id' & l & [= <-] & _ & Hl & Hst & _ & Hlid & _).
  assert (Hrun : exists x, run_stages content id w0 = (x, w'))
    by (destruct Hcase as [(? & ? & _) | (? & ? & _)]; eauto).
  destruct Hrun as (x & Hrun).
  destruct (run_stages_no_start _ _ _ _ _ Hrun) as (es & Hes & Hns).
  exists l, es. unfold logged in Hes.
  split; [rewrite Hes, Hl, <- app_assoc; reflexivity|].
  split; [exact Hst|]. split; [congruence|]. split; [exact Hns|].
  destruct Hcase as [(res & Hr & [= <-]) | (e & Hr & [= ->])].
  - apply run_stages_outcome in Hr
      as (cls & md & hl & ct & fn & pkg & l' & -> & _ & _ & _ & _ & _ & _ & _
          & _ & _ & _ & Hlast & Hc & _ & Hdet).
    exists l'. split; [|split; [exact Hc | exact Hdet]].
    rewrite Hes, Hl, <- app_assoc in Hlast. simpl in Hlast.
    rewrite last_app in Hlast.
    destruct es as [|e1 es'] using rev_ind.
    + simpl in Hlast. injection Hlast as ->. rewrite Hst in Hc. discriminate.
    + rewrite last_snoc. rewrite app_comm_cons, last_snoc in Hlast. exact Hlast.
  - destruct (run_stages_raises_incomplete _ _ _ _ _ Hr) as (es' & Hes' & Hnc).
    unfold logged in Hes'. rewrite Hes in Hes'.
    now apply app_inv_head in Hes' as ->.
Qed.

(** X24: an item given no id, or the empty id, goes under a generated one:
    content_ followed by the microsecond stamp of the first clock reading
    of the call. *)
Theorem process_generates_id content iid src (w : world) r w' :
  iid = None \/ iid = Some "" ->
  process content iid src w = (inr r, w') ->
  result_id r = "content_" +:+ stamp_micros (now (w_clock w)).1.
Proof.
  intros Hi H. pose proof H as Hp.
  apply process_cases in H as (id & w0 & Hb & _).
  rewrite (process_result_id _ _ _ _ _ _ _ _ Hb Hp).
  destruct (begin_item_entry _ _ _ _ _ Hb)
    as (id' & l & [= <-] & _ & _ & _ & _ & _ & ->).
  now destruct Hi as [-> | ->].
Qed.

End OrchestratorMore.

(** ** The further statements on the examples *)

Module Checks.
Import Scripted Examples MoreExamples.

Abbreviation extract_json := (Utils.extract_json_from_response Fragment.loads).


(** a reply cut off after the opening brace *)
Lemma extract_unclosed_brace_witness :
  extract_json "Sure: { content_type" "API response"
  = inl (ValueError ("Malformed JSON in API response. Response: "
                       +:+ PyStr.take 200 "Sure: { content_type" +:+ "...")).
Proof.
  apply (extract_unclosed_brace Fragment.loads); reflexivity.
Defined.

(** an object between two sentences *)
Lemma extract_object_in_prose_witness :
  extract_json ("Here is the result: "
                  +:+ braced (json_text "'neutral': 'United beat Liverpool'")
                  +:+ " Hope this helps.") "API response"
  = inr (JObj [("neutral", JStr "United beat Liverpool")]).
Proof.
  apply (extract_object_in_prose Fragment.loads); reflexivity.
Defined.


Lemma validate_then_subscript_witness :
  (exists kvs, JObj [("neutral", JStr "a"); ("fan_oriented", JStr "b");
                     ("casual_viewer", JStr "c")] = JObj kvs)
  /\ forall k, k ∈ headline_keys ->
       exists v, Py.subscript
                   (JObj [("neutral", JStr "a"); ("fan_oriented", JStr "b");
                          ("casual_viewer", JStr "c")]) k = inr v.
Proof.
  apply (validate_then_subscript Fragment.repr _ headline_keys
           "Headline generation result").
  reflexivity.
Defined.

Abbreviation classify := (classify now create Fragment.loads Fragment.repr Fragment.str).
Abbreviation extract := (extract now create Fragment.loads).
Abbreviation generate := (generate now create Fragment.loads Fragment.repr).
Abbreviation route := (route (LLM:=LLM) now).

(** metadata without teams and players: the prompt is built *)
Lemma generate_contract_witness :
  stage_contract "GENERATE" "item_1" "Headline generation failed: "
    "Failed to parse headline generation response: "
    (generate report (JObj []) "match_report" "item_1").
Proof.
  eapply (generate_contract LLM Clock now create Fragment.loads Fragment.repr
            report (JObj []) "match_report" "item_1").
  reflexivity.
Defined.

(** metadata whose [teams] is a number: [join] rejects it *)
Lemma generate_prompt_error_witness :
  exists msg,
    generate report (JObj [("teams", JInt 3)]) "match_report" "item_1"
      (start scenario_a one_second)
    = (inl (TypeError msg), start scenario_a one_second).
Proof.
  apply (generate_prompt_error LLM Clock now create Fragment.loads Fragment.repr
           report [("teams", JInt 3)] "match_report" "item_1"
           (start scenario_a one_second)).
  left. split; reflexivity.
Defined.

Lemma classify_returns_classification_witness :
  exists cls w',
    classify report "item_1" (start scenario_a one_second) = (inr cls, w')
    /\ exists reply kvs ct confidence reasoning,
         create (classify_request report) scenario_a = (inr reply, w_llm w')
         /\ Utils.extract_json_from_response Fragment.loads reply
              ("classification for " +:+ "item_1") = inr cls
         /\ cls = JObj kvs
         /\ Py.dict_get "content_type" kvs = Some (JStr ct) /\ ct ∈ valid_types
         /\ Py.dict_get "confidence" kvs = Some confidence
         /\ Py.dict_get "reasoning" kvs = Some reasoning.
Proof.
  do 2 eexists. split; [vm_compute; reflexivity|].
  apply (classify_returns_classification LLM Clock now create Fragment.loads
           Fragment.repr Fragment.str report "item_1"
           (start scenario_a one_second)).
  vm_compute. reflexivity.
Defined.

Lemma extract_returns_metadata_witness :
  exists md w',
    extract report "match_report" "item_1" (start [inr metadata_reply] one_second)
    = (inr md, w')
    /\ exists reply kvs teams_found players_found,
         create (extraction_request report "match_report") [inr metadata_reply]
         = (inr reply, w_llm w')
         /\ Utils.extract_json_from_response Fragment.loads reply
              ("metadata extraction for " +:+ "item_1") = inr md
         /\ md = JObj kvs
         /\ Py.len (default (JArr []) (Py.dict_get "teams" kvs)) = inr teams_found
         /\ Py.len (default (JArr []) (Py.dict_get "players" kvs))
            = inr players_found.
Proof.
  do 2 eexists. split; [vm_compute; reflexivity|].
  apply (extract_returns_metadata LLM Clock now create Fragment.loads
           report "match_report" "item_1" (start [inr metadata_reply] one_second)).
  vm_compute. reflexivity.
Defined.

Lemma generate_returns_headlines_witness :
  exists hl w',
    generate report (JObj []) "match_report" "item_1"
      (start [inr headlines_reply] one_second) = (inr hl, w')
    /\ exists p reply kvs neutral fan casual,
         build_generation_prompt report (JObj []) "match_report" = inr p
         /\ create (generation_request p) [inr headlines_reply]
            = (inr reply, w_llm w')
         /\ Utils.extract_json_from_response Fragment.loads reply
              ("headline generation for " +:+ "item_1") = inr hl
         /\ hl = JObj kvs
         /\ Py.dict_get "neutral" kvs = Some neutral
         /\ Py.dict_get "fan_oriented" kvs = Some fan
         /\ Py.dict_get "casual_viewer" kvs = Some casual.
Proof.
  do 2 eexists. split; [vm_compute; reflexivity|].
  apply (generate_returns_headlines LLM Clock now create Fragment.loads
           Fragment.repr report (JObj []) "match_report" "item_1"
           (start [inr headlines_reply] one_second)).
  vm_compute. reflexivity.
Defined.







Lemma process_log_entries_witness :
  exists r w',
    run report (Some "item_1") None (start scenario_a one_second) = (inr r, w')
    /\ exists l es,
         w_log w' = ([] ++ l :: es)%list
         /\ le_stage l = "PROCESS_START" /\ le_input_id l = result_id r
         /\ Forall (fun l' => le_stage l' <> "PROCESS_START") es
         /\ match r with
            | Success _ _ _ _ path =>
                exists l', last es = Some l'
                           /\ le_stage l' = "PROCESS_COMPLETE"
                           /\ le_details l' = Some [("output_path", JStr path)]
            | Failed _ _ =>
                Forall (fun l' => le_stage l' <> "PROCESS_COMPLETE") es
            end.
Proof.
  do 2 eexists. split; [vm_compute; reflexivity|].
  eapply (process_log_entries LLM Clock now create Fragment.loads
           Fragment.repr Fragment.str report (Some "item_1") None
           (start scenario_a one_second)).
  vm_compute. reflexivity.
Defined.

Lemma process_generates_id_witness :
  exists r w',
    run report (Some "") None (start scenario_a one_second) = (inr r, w')
    /\ result_id r = "content_" +:+ stamp_micros (now one_second).1.
Proof.
  do 2 eexists. split; [vm_compute; reflexivity|].
  eapply (process_generates_id LLM Clock now create Fragment.loads
           Fragment.repr Fragment.str report (Some "") None
           (start scenario_a one_second)).
  - now right.
  - vm_compute. reflexivity.
Defined.

End Checks.
